(** * LandNSM10: the Luigs & Neumann SM-10 serial driver

    A shallow embedding of [LandNSM10.py].  Python values are modelled as
    follows: [int] is [Z], [str] is [string], [bytes] is [list byte], a
    [float] is a [spec_float] (binary64 values), [None] is the [None] of
    [option].  Exceptions are an error type threaded through a state and
    error monad whose state is the driver object together with the console. *)

From Stdlib Require Import ZArith List String Ascii Bool Lia.
From Stdlib Require Import Strings.Byte Floats.SpecFloat.
Import ListNotations.

Local Open Scope string_scope.
Local Open Scope list_scope.
Local Open Scope Z_scope.

(** ** Exceptions and results *)

(** The exceptions the modelled code can raise. *)
Inductive exn : Type :=
| AttributeError   (* attribute access on [None], e.g. [self.ser.write] *)
| TypeError        (* subscripting [None] *)
| IndexError       (* [ans[4]] on a reply that is too short *)
| ValueError       (* non-ASCII text given to [unhexlify], bad [int] literal *)
| BinasciiError    (* [binascii.Error]: odd length or non-hex digit *)
| StructError      (* [struct.error]: buffer of the wrong size *)
| OverflowError    (* [struct.pack('>f', x)] with [x] too large *)
| UnboundLocalError. (* a local read on a path that never bound it *)

Inductive result (A : Type) : Type :=
| Ok (a : A)
| Raise (e : exn).
Arguments Ok {A} a.
Arguments Raise {A} e.

Definition bytes := list byte.

Definition byte_of_Z (z : Z) : byte :=
  match Byte.of_N (Z.to_N z) with
  | Some b => b
  | None => x00
  end.

Definition Z_of_byte (b : byte) : Z := Z.of_N (Byte.to_N b).

(** ** Hexadecimal text: ['%02x' % n] and [binascii.unhexlify] *)

Definition hex_digit (d : Z) : ascii :=
  match d with
  | 0 => "0" | 1 => "1" | 2 => "2" | 3 => "3"
  | 4 => "4" | 5 => "5" | 6 => "6" | 7 => "7"
  | 8 => "8" | 9 => "9" | 10 => "a" | 11 => "b"
  | 12 => "c" | 13 => "d" | 14 => "e" | _ => "f"
  end%char.

(** Value of one hexadecimal digit; [unhexlify] and [int(_, 16)] take both
    letter cases. *)
Definition hex_val (c : ascii) : option Z :=
  let n := Z.of_N (N_of_ascii c) in
  if (48 <=? n) && (n <=? 57) then Some (n - 48)
  else if (97 <=? n) && (n <=? 102) then Some (n - 87)
  else if (65 <=? n) && (n <=? 70) then Some (n - 55)
  else None.

(** Digits of a non-negative integer in base 16, most significant first.
    [fuel] bounds the number of digits. *)
Fixpoint hex_digits (fuel : nat) (n : Z) (acc : string) : string :=
  let acc' := String (hex_digit (n mod 16)) acc in
  match fuel with
  | O => acc'
  | S fuel' => if n <? 16 then acc' else hex_digits fuel' (n / 16) acc'
  end.

(** ['%x' % n] for [0 <= n]. *)
Definition hex (n : Z) : string := hex_digits (Z.to_nat (Z.log2 n)) n "".

(** ['%02x' % n]: zero-padded to width two; a negative number is printed
    with a minus sign, which already fills one of the two columns. *)
Definition fmt_02x (n : Z) : string :=
  if n <? 0 then String "-"%char (hex (- n))
  else
    let h := hex n in
    if (String.length h <? 2)%nat then String "0"%char h else h.

Definition is_ascii (c : ascii) : bool := (N_of_ascii c <? 128)%N.

Fixpoint all_ascii (s : string) : bool :=
  match s with
  | EmptyString => true
  | String c s' => is_ascii c && all_ascii s'
  end.

Fixpoint unhexlify_pairs (s : string) : result bytes :=
  match s with
  | EmptyString => Ok []
  | String _ EmptyString => Raise BinasciiError
  | String a (String b rest) =>
      match hex_val a, hex_val b with
      | Some h, Some l =>
          match unhexlify_pairs rest with
          | Ok bs => Ok (byte_of_Z (16 * h + l) :: bs)
          | Raise e => Raise e
          end
      | _, _ => Raise BinasciiError
      end
  end.

(** [binascii.unhexlify] on a [str]: the text must be ASCII ([ValueError]
    otherwise), of even length and made of hexadecimal digits
    ([binascii.Error] otherwise). *)
Definition unhexlify (s : string) : result bytes :=
  if all_ascii s then unhexlify_pairs s else Raise ValueError.

(** [binascii.hexlify]: two lower-case digits per byte. *)
Fixpoint hexlify (bs : bytes) : string :=
  match bs with
  | [] => ""
  | b :: bs' =>
      String (hex_digit (Z_of_byte b / 16))
        (String (hex_digit (Z_of_byte b mod 16)) (hexlify bs'))
  end.

Fixpoint int16_digits (s : string) (acc : Z) : result Z :=
  match s with
  | EmptyString => Ok acc
  | String c s' =>
      match hex_val c with
      | Some d => int16_digits s' (16 * acc + d)
      | None => Raise ValueError
      end
  end.

(** [int(s, 16)] on a run of hexadecimal digits.  Signs, prefixes, blanks
    and underscores are not modelled (they raise here): the text this
    program passes comes from [hexlify], which emits digits only. *)
Definition int16 (s : string) : result Z :=
  match s with
  | EmptyString => Raise ValueError
  | _ => int16_digits s 0
  end.

(** Python slices [s[lo:hi]], [s[lo:]] and [s[:hi]] with non-negative
    bounds: out-of-range bounds are clamped. *)
Definition str_slice (lo hi : nat) (s : string) : string :=
  substring lo (hi - lo) s.
Definition str_from (lo : nat) (s : string) : string :=
  substring lo (String.length s - lo) s.
Definition str_to (hi : nat) (s : string) : string :=
  substring 0 hi s.
Definition slice {A : Type} (lo hi : nat) (l : list A) : list A :=
  firstn (hi - lo) (skipn lo l).

(** ** Floats: [struct.pack('>f', x)] and [struct.unpack('f', b)] *)

(** A Python [float] is an IEEE-754 binary64 value; a C [float] is a
    binary32 value.  Both are [spec_float]s, valid for their format.
    [spec_float] has one NaN: the sign and payload of a NaN are not
    modelled. *)
Definition pyfloat := spec_float.

Definition prec32 : Z := 24.
Definition emax32 : Z := 128.
Definition prec64 : Z := 53.
Definition emax64 : Z := 1024.

Definition is_infinity (x : spec_float) : bool :=
  match x with
  | S754_infinity _ => true
  | _ => false
  end.

Definition is_finite (x : spec_float) : bool :=
  match x with
  | S754_zero _ | S754_finite _ _ _ => true
  | _ => false
  end.

(** The C conversion [(float)x], rounding to nearest, ties to even. *)
Definition double_to_single (x : pyfloat) : spec_float :=
  match x with
  | S754_finite s m e => binary_round prec32 emax32 s m e
  | _ => x
  end.

(** The C conversion [(double)y], which is exact. *)
Definition single_to_double (y : spec_float) : pyfloat :=
  match y with
  | S754_finite s m e => binary_round prec64 emax64 s m e
  | _ => y
  end.

Definition sign_bit (s : bool) : Z := if s then 2 ^ 31 else 0.

(** The 32-bit pattern of a binary32 value: sign, 8-bit biased exponent,
    23-bit fraction. *)
Definition bits_of_single (y : spec_float) : Z :=
  match y with
  | S754_zero s => sign_bit s
  | S754_infinity s => sign_bit s + 255 * 2 ^ 23
  | S754_nan => 255 * 2 ^ 23 + 2 ^ 22
  | S754_finite s m e =>
      if Zpos m <? 2 ^ 23 then sign_bit s + Zpos m
      else sign_bit s + (e + 150) * 2 ^ 23 + (Zpos m - 2 ^ 23)
  end.

Definition single_of_bits (w : Z) : spec_float :=
  let s := Z.testbit w 31 in
  let ex := (w / 2 ^ 23) mod 256 in
  let frac := w mod 2 ^ 23 in
  if ex =? 255 then
    if frac =? 0 then S754_infinity s else S754_nan
  else if ex =? 0 then
    match frac with
    | Zpos m => S754_finite s m (-149)
    | _ => S754_zero s
    end
  else
    match frac + 2 ^ 23 with
    | Zpos m => S754_finite s m (ex - 150)
    | _ => S754_nan
    end.

(** The four bytes of a 32-bit word, most significant first. *)
Definition be32 (w : Z) : bytes :=
  [byte_of_Z (w / 2 ^ 24); byte_of_Z ((w / 2 ^ 16) mod 256);
   byte_of_Z ((w / 2 ^ 8) mod 256); byte_of_Z (w mod 256)].

(** The 32-bit word whose bytes are given least significant first. *)
Definition le32 (b0 b1 b2 b3 : byte) : Z :=
  Z_of_byte b0 + 2 ^ 8 * Z_of_byte b1 + 2 ^ 16 * Z_of_byte b2
  + 2 ^ 24 * Z_of_byte b3.

(** [struct.pack('>f', x)]: CPython converts [x] to a C [float] and raises
    [OverflowError] when a finite [x] rounds to an infinity. *)
Definition struct_pack_be_f (x : pyfloat) : result bytes :=
  let y := double_to_single x in
  if is_infinity y && negb (is_infinity x) then Raise OverflowError
  else Ok (be32 (bits_of_single y)).

(** The byte order [struct] calls native.  The module reads
    [os.environ['USERPROFILE']] when it is imported and opens [COM3]: it
    runs on Windows, whose hosts are little-endian. *)
Inductive byteorder : Type := LittleEndian | BigEndian.
Definition native_byteorder : byteorder := LittleEndian.

(** [struct.unpack('f', b)[0]]: native order and size; the buffer must hold
    exactly four bytes. *)
Definition struct_unpack_f (b : bytes) : result pyfloat :=
  match b with
  | [b0; b1; b2; b3] =>
      let w := match native_byteorder with
               | LittleEndian => le32 b0 b1 b2 b3
               | BigEndian => le32 b3 b2 b1 b0
               end in
      Ok (single_to_double (single_of_bits w))
  | _ => Raise StructError
  end.

(** [float_to_dec_bytes]: the method does not use [self]. *)
Definition float_to_dec_bytes (number : pyfloat) : result (list Z) :=
  match struct_pack_be_f number with
  | Raise e => Raise e
  | Ok packed =>
      let hex_rep := hexlify packed in
      match int16 (str_from 6 hex_rep) with
      | Raise e => Raise e
      | Ok d0 =>
      match int16 (str_slice 4 6 hex_rep) with
      | Raise e => Raise e
      | Ok d1 =>
      match int16 (str_slice 2 4 hex_rep) with
      | Raise e => Raise e
      | Ok d2 =>
      match int16 (str_to 2 hex_rep) with
      | Raise e => Raise e
      | Ok d3 => Ok [d0; d1; d2; d3]
      end end end end
  end.

(** ** The serial port and the driver object *)

(** The [serial.Serial] object: [written] is every byte written so far,
    [incoming] the bytes the device delivers before the read timeout. *)
Record Serial : Type := mkSerial {
  written : bytes;
  incoming : bytes
}.

(** [ser.write(data)]. *)
Definition serial_write (s : Serial) (data : bytes) : Serial :=
  mkSerial (written s ++ data) (incoming s).

(** [ser.read(size)]: up to [size] bytes, fewer when the timeout expires. *)
Definition serial_read (s : Serial) (size : Z) : bytes * Serial :=
  (firstn (Z.to_nat size) (incoming s),
   mkSerial (written s) (skipn (Z.to_nat size) (incoming s))).

(** The messages handed to [write_log].  The text, built in the source with
    [str] and [format], is kept as the values it is built from; the time
    stamp is left out. *)
Inductive log_msg : Type :=
| MsgLogFileFailed
| MsgConnected
| MsgConnectionFailed
| MsgLengthError (n_bytes actual : Z)
| MsgSending (char_command : string)
| MsgQueryPosition (axis : Z)
| MsgPosition (axis : Z) (position : pyfloat)
| MsgApproach (axis : Z) (absolute slow : bool) (position : pyfloat)
| MsgStatus (axis : Z)
| MsgSwitch (axis : Z) (switch_on : bool).

(** The attributes of a [LandNSM10] object, and the console it prints to.
    [log_file] holds the lines appended to the file, [None] when there is
    no file; [logging] is [false] where the source leaves it unset, which
    [write_log] cannot tell apart. *)
Record LandNSM10 : Type := mkLandNSM10 {
  verbose : Z;
  serial_debug : bool;
  log_file : option (list log_msg);
  logging : bool;
  ser : option Serial;
  connected : bool;
  console : list log_msg
}.

Definition set_ser (s : option Serial) (self : LandNSM10) : LandNSM10 :=
  mkLandNSM10 (verbose self) (serial_debug self) (log_file self)
    (logging self) s (connected self) (console self).

Definition set_log_file (f : option (list log_msg)) (self : LandNSM10)
  : LandNSM10 :=
  mkLandNSM10 (verbose self) (serial_debug self) f
    (logging self) (ser self) (connected self) (console self).

Definition set_console (c : list log_msg) (self : LandNSM10) : LandNSM10 :=
  mkLandNSM10 (verbose self) (serial_debug self) (log_file self)
    (logging self) (ser self) (connected self) c.

(** ** A state and error monad over the driver object *)

Definition M (A : Type) : Type := LandNSM10 -> result A * LandNSM10.

Definition ret {A : Type} (a : A) : M A := fun self => (Ok a, self).

Definition raise {A : Type} (e : exn) : M A := fun self => (Raise e, self).

Definition bind {A B : Type} (c : M A) (k : A -> M B) : M B :=
  fun self =>
    match c self with
    | (Ok a, self') => k a self'
    | (Raise e, self') => (Raise e, self')
    end.

Definition lift {A : Type} (r : result A) : M A := fun self => (r, self).

Definition get : M LandNSM10 := fun self => (Ok self, self).

Definition modify (f : LandNSM10 -> LandNSM10) : M unit :=
  fun self => (Ok tt, f self).

Notation "x <- c1 ;; c2" := (bind c1 (fun x => c2))
  (at level 61, c1 at next level, right associativity).
Notation "c1 ;; c2" := (bind c1 (fun _ => c2))
  (at level 61, right associativity).

Definition when (b : bool) (c : M unit) : M unit := if b then c else ret tt.

(** ** Constants *)

Definition SYN : string := "16".
Definition LSB : Z := 0.
Definition MSB : Z := 0.

(** ** Methods *)

Definition write_log (msg : log_msg) : M unit :=
  self <- get ;;
  when ((verbose self =? 1) || (verbose self =? 3))
    (modify (set_console (console self ++ [msg]))) ;;
  when (((verbose self =? 2) || (verbose self =? 3)) && logging self)
    (match log_file self with
     | Some lines => modify (set_log_file (Some (lines ++ [msg])))
     | None => raise AttributeError
     end).

(** [__init__].  [log_opened] tells whether [open(LOGFILE, 'a')] succeeds
    and [port] is the result of [sr.Serial(...)], [None] when it raises.
    [stdout] is the console before the call. *)
Definition init (verbose : Z) (serial_debug : bool)
    (log_opened : bool) (port : option Serial) (stdout : list log_msg)
  : result unit * LandNSM10 :=
  let self0 := mkLandNSM10 verbose serial_debug None false None false stdout in
  (when ((verbose =? 2) || (verbose =? 3))
     (if log_opened then
        modify (fun self =>
          mkLandNSM10 verbose serial_debug (Some []) true
            (ser self) (connected self) (console self))
      else
        modify (fun self =>
          mkLandNSM10 verbose serial_debug None false
            (ser self) (connected self) (console self)) ;;
        write_log MsgLogFileFailed) ;;
   msg <- match port with
          | Some p =>
              modify (fun self =>
                mkLandNSM10 verbose serial_debug (log_file self)
                  (logging self) (Some p) true (console self)) ;;
              ret MsgConnected
          | None =>
              modify (fun self =>
                mkLandNSM10 verbose serial_debug (log_file self)
                  (logging self) None false (console self)) ;;
              ret MsgConnectionFailed
          end ;;
   write_log msg) self0.

(** [self.ser.write(data)]. *)
Definition ser_write (data : bytes) : M unit :=
  self <- get ;;
  match ser self with
  | Some s => modify (set_ser (Some (serial_write s data)))
  | None => raise AttributeError
  end.

(** [self.ser.read(size)]. *)
Definition ser_read (size : Z) : M bytes :=
  self <- get ;;
  match ser self with
  | Some s =>
      let (ans, s') := serial_read s size in
      modify (set_ser (Some s')) ;; ret ans
  | None => raise AttributeError
  end.

(** The text of the frame: [SYN], the command id, the count and the
    parameters, then the two bytes of the unused checksum. *)
Definition char_command (cmd_id : string) (n_bytes : Z) (var_bytes : list Z)
  : string :=
  let char_command := (SYN ++ cmd_id ++ fmt_02x n_bytes)%string in
  let char_command :=
    fold_left (fun acc individual_bytes =>
                 (acc ++ fmt_02x individual_bytes)%string)
      var_bytes char_command in
  (char_command ++ (fmt_02x LSB ++ fmt_02x MSB))%string.

Definition send_command (cmd_id : string) (n_bytes : Z)
    (var_bytes : list Z) (n_ret_bytes : Z) : M (option bytes) :=
  if negb (n_bytes =? Z.of_nat (List.length var_bytes)) then
    self <- get ;;
    when (serial_debug self)
      (write_log (MsgLengthError n_bytes (Z.of_nat (List.length var_bytes)))) ;;
    ret None
  else
    let char_command := char_command cmd_id n_bytes var_bytes in
    bin_command <- lift (unhexlify char_command) ;;
    ser_write bin_command ;;
    self <- get ;;
    when (serial_debug self) (write_log (MsgSending char_command)) ;;
    (* time.sleep(self.cmd_sleep) changes nothing that is modelled *)
    ans <- ser_read n_ret_bytes ;;
    ret (Some ans).

Definition position_inquiry (axis : Z) : M pyfloat :=
  let cmd_id := "0101" in
  let n_bytes := 1 in
  let n_ret_bytes := 10 in
  let var_bytes := [axis] in
  write_log (MsgQueryPosition axis) ;;
  ans <- send_command cmd_id n_bytes var_bytes n_ret_bytes ;;
  match ans with
  | None => raise TypeError
  | Some ans =>
      position <- lift (struct_unpack_f (slice 4 8 ans)) ;;
      write_log (MsgPosition axis position) ;;
      ret position
  end.

(** The [if]/[elif] chain of [approach_position]; it has no [else], so a
    path through all four tests would leave [cmd_id] unbound. *)
Definition approach_cmd_id (absolute slow : bool) : result string :=
  if absolute && negb slow then Ok "0048"
  else if absolute && slow then Ok "0049"
  else if negb absolute && negb slow then Ok "004a"
  else if negb absolute && slow then Ok "004b"
  else Raise UnboundLocalError.

Definition approach_position (axis : Z) (position : pyfloat)
    (absolute slow reverse : bool) : M (option bytes) :=
  let cmd_id := approach_cmd_id absolute slow in
  let n_bytes := 5 in
  let n_ret_bytes := 5 in
  let position := if reverse then SFopp position else position in
  dec_bytes <- lift (float_to_dec_bytes position) ;;
  let var_bytes := [axis] ++ dec_bytes in
  write_log (MsgApproach axis absolute slow position) ;;
  cmd_id <- lift cmd_id ;;
  send_command cmd_id n_bytes var_bytes n_ret_bytes.

Definition axis_status (axis : Z) : M Z :=
  let cmd_id := "011e" in
  let n_bytes := 1 in
  let n_ret_bytes := 7 in
  let var_bytes := [axis] in
  ans <- send_command cmd_id n_bytes var_bytes n_ret_bytes ;;
  match ans with
  | None => raise TypeError
  | Some ans =>
      match nth_error ans 4 with
      | None => raise IndexError
      | Some b =>
          write_log (MsgStatus axis) ;;
          ret (Z_of_byte b)
      end
  end.

Definition axis_switch (axis : Z) (switch_on : bool) : M (option bytes) :=
  let cmd_id := if negb switch_on then "0034" else "0035" in
  let n_bytes := 1 in
  let n_ret_bytes := 5 in
  let var_bytes := [axis] in
  ans <- send_command cmd_id n_bytes var_bytes n_ret_bytes ;;
  write_log (MsgSwitch axis switch_on) ;;
  ret ans.

(** ** Positions given as integers *)

(** The position as a caller may pass it: [main] passes the int [-100],
    and the methods above take the case of a float. *)
Inductive number : Type :=
| PyInt (n : Z)
| PyFloat (x : pyfloat).

(** [float(n)]: the nearest binary64 value, ties to even, and
    [OverflowError] when that is beyond the largest float. *)
Definition int_to_double (n : Z) : result pyfloat :=
  let x := binary_normalize prec64 emax64 n 0 false in
  if is_infinity x then Raise OverflowError else Ok x.

(** [-position]: the negation of an int is an int, so that [-0] is [0]. *)
Definition neg_number (v : number) : number :=
  match v with
  | PyInt n => PyInt (- n)
  | PyFloat x => PyFloat (SFopp x)
  end.

(** The float that ['{0:+.4f}'.format(position)] prints. *)
Definition float_of_number (v : number) : pyfloat :=
  match v with
  | PyInt n => binary_normalize prec64 emax64 n 0 false
  | PyFloat x => x
  end.

(** [struct.pack('>f', v)] for an int or a float.  An int is converted
    with [float(v)] first, and [struct] reports every failure on an int
    argument, that of the conversion and the [OverflowError] of the
    packing, as [struct.error]. *)
Definition struct_pack_be_f_number (v : number) : result bytes :=
  match v with
  | PyFloat x => struct_pack_be_f x
  | PyInt n =>
      match int_to_double n with
      | Raise _ => Raise StructError
      | Ok x =>
          match struct_pack_be_f x with
          | Raise _ => Raise StructError
          | Ok packed => Ok packed
          end
      end
  end.

(** [float_to_dec_bytes] on an int or a float. *)
Definition float_to_dec_bytes_number (number : number) : result (list Z) :=
  match struct_pack_be_f_number number with
  | Raise e => Raise e
  | Ok packed =>
      let hex_rep := hexlify packed in
      match int16 (str_from 6 hex_rep) with
      | Raise e => Raise e
      | Ok d0 =>
      match int16 (str_slice 4 6 hex_rep) with
      | Raise e => Raise e
      | Ok d1 =>
      match int16 (str_slice 2 4 hex_rep) with
      | Raise e => Raise e
      | Ok d2 =>
      match int16 (str_to 2 hex_rep) with
      | Raise e => Raise e
      | Ok d3 => Ok [d0; d1; d2; d3]
      end end end end
  end.

(** [approach_position] on an int or a float position. *)
Definition approach_position_number (axis : Z) (position : number)
    (absolute slow reverse : bool) : M (option bytes) :=
  let cmd_id := approach_cmd_id absolute slow in
  let n_bytes := 5 in
  let n_ret_bytes := 5 in
  let position := if reverse then neg_number position else position in
  dec_bytes <- lift (float_to_dec_bytes_number position) ;;
  let var_bytes := [axis] ++ dec_bytes in
  write_log (MsgApproach axis absolute slow (float_of_number position)) ;;
  cmd_id <- lift cmd_id ;;
  send_command cmd_id n_bytes var_bytes n_ret_bytes.

(** ** Auxiliary notions used in the statements *)

(** The class invariant [write_log] relies on: when [logging] is set there
    is a log file. *)
Definition log_ok (self : LandNSM10) : Prop :=
  logging self = true -> log_file self <> None.

(** The text of the parameter bytes, as the loop of [send_command]
    appends it. *)
Fixpoint hex_params (var_bytes : list Z) : string :=
  match var_bytes with
  | [] => ""
  | b :: rest => (fmt_02x b ++ hex_params rest)%string
  end.

Fixpoint all_hex (s : string) : bool :=
  match s with
  | EmptyString => true
  | String c s' =>
      match hex_val c with
      | Some _ => all_hex s'
      | None => false
      end
  end.

Definition byte_range (b : Z) : Prop := 0 <= b <= 255.

(** The opcode table of the manual, as a byte. *)
Definition approach_opcode (absolute slow : bool) : byte :=
  match absolute, slow with
  | true, false => x48
  | true, true => x49
  | false, false => x4a
  | false, true => x4b
  end.

(** Sample values: [1.0], [-100.0], [100.0] and [2 ** 128] as binary64
    floats, and [-100.0] as a binary32 float. *)
Definition f_one : pyfloat := S754_finite false (2 ^ 52) (-52).
Definition f_m100 : pyfloat := S754_finite true (25 * 2 ^ 48) (-46).
Definition f_100 : pyfloat := S754_finite false (25 * 2 ^ 48) (-46).
Definition f_2p128 : pyfloat := S754_finite false (2 ^ 52) 76.
Definition single_m100 : spec_float := S754_finite true (25 * 2 ^ 19) (-17).

(** A driver that logs nothing, on an open port with nothing to read. *)
Definition quiet_port : Serial := mkSerial [] [].
Definition quiet_driver : LandNSM10 :=
  mkLandNSM10 0 false None false (Some quiet_port) true [].

(** A quiet driver on an open port that will deliver [reply]. *)
Definition driver_with_reply (reply : bytes) : LandNSM10 :=
  mkLandNSM10 0 false None false (Some (mkSerial [] reply)) true [].

(** Unfolds the monad so that a run shows its case analysis. *)
Ltac run_monad :=
  unfold bind, get, modify, ret, raise, lift, when in *; cbn [fst snd] in *.

(** ** Sanity checks of the model on concrete values *)

Example hex_255 : fmt_02x 255 = "ff". Proof. reflexivity. Qed.
Example hex_5 : fmt_02x 5 = "05". Proof. reflexivity. Qed.
Example hex_0 : fmt_02x 0 = "00". Proof. reflexivity. Qed.
Example hex_256 : fmt_02x 256 = "100". Proof. reflexivity. Qed.
Example hex_4096 : fmt_02x 4096 = "1000". Proof. reflexivity. Qed.
Example hex_65535 : fmt_02x 65535 = "ffff". Proof. reflexivity. Qed.
Example hex_m1 : fmt_02x (-1) = "-1". Proof. reflexivity. Qed.
Example hex_m255 : fmt_02x (-255) = "-ff". Proof. reflexivity. Qed.
Example unhex_1 : unhexlify "16010101000000" = Ok [x16; x01; x01; x01; x00; x00; x00]%byte.
Proof. reflexivity. Qed.
Example unhex_2 : unhexlify "160" = Raise BinasciiError.
Proof. reflexivity. Qed.
Example unhex_3 : unhexlify "16AbcD" = Ok [x16; xab; xcd]%byte.
Proof. reflexivity. Qed.

Example pack_one : struct_pack_be_f f_one = Ok [x3f; x80; x00; x00]%byte.
Proof. vm_compute. reflexivity. Qed.
Example pack_m100 : float_to_dec_bytes f_m100 = Ok [0; 0; 200; 194].
Proof. vm_compute. reflexivity. Qed.
Example unpack_m100 : struct_unpack_f [x00; x00; xc8; xc2]%byte = Ok f_m100.
Proof. vm_compute. reflexivity. Qed.
Example pack_big : float_to_dec_bytes f_2p128 = Raise OverflowError.
Proof. vm_compute. reflexivity. Qed.

(** [position_inquiry(15)] on a 10-byte reply carrying [-100.0]. *)
Example position_inquiry_m100 :
  position_inquiry 15
    (driver_with_reply [x00; x00; x00; x00; x00; x00; xc8; xc2; x00; x00])
  = (Ok f_m100,
     mkLandNSM10 0 false None false
       (Some (mkSerial [x16; x01; x01; x01; x0f; x00; x00] []))
       true []).
Proof. vm_compute. reflexivity. Qed.

(** [axis_status(3)] on a 7-byte reply whose byte 4 is [0x02]. *)
Example axis_status_2 :
  fst (axis_status 3
         (driver_with_reply [x00; x00; x00; x00; x02; x00; x00]))
  = Ok 2.
Proof. vm_compute. reflexivity. Qed.

(** [approach_position(15, -100, absolute=False)], the call of [main]. *)
Example approach_main :
  approach_position 15 f_m100 false true false quiet_driver
  = (Ok (Some []),
     mkLandNSM10 0 false None false
       (Some (mkSerial
                [x16; x00; x4b; x05; x0f; x00; x00; xc8; xc2; x00; x00] []))
       true []).
Proof. vm_compute. reflexivity. Qed.

(** The call of [main] with its int argument, and an int too large. *)
Example approach_main_int :
  approach_position_number 15 (PyInt (-100)) false true false quiet_driver
  = approach_position 15 f_m100 false true false quiet_driver.
Proof. vm_compute. reflexivity. Qed.

Example approach_int_too_large :
  approach_position_number 15 (PyInt (2 ^ 128)) true true false quiet_driver
  = (Raise StructError, quiet_driver).
Proof. vm_compute. reflexivity. Qed.

Example approach_int_zero_reverse :
  option_map written
    (ser (snd (approach_position_number 15 (PyInt 0) true true true
                 quiet_driver)))
  = Some [x16; x00; x49; x05; x0f; x00; x00; x00; x00; x00; x00].
Proof. vm_compute. reflexivity. Qed.

Example axis_switch_off :
  option_map written
    (ser (snd (axis_switch 7 false quiet_driver)))
  = Some [x16; x00; x34; x01; x07; x00; x00].
Proof. vm_compute. reflexivity. Qed.

(** ** Text: append, length, hexadecimal digits *)

Lemma string_app_assoc (a b c : string) :
  ((a ++ b) ++ c)%string = (a ++ (b ++ c))%string.
Proof.
  induction a as [|ch a IH]; simpl; [reflexivity | now rewrite IH].
Qed.

Lemma string_app_nil_r (a : string) : (a ++ "")%string = a.
Proof.
  induction a as [|ch a IH]; simpl; [reflexivity | now rewrite IH].
Qed.

Lemma string_length_app (a b : string) :
  String.length (a ++ b) = (String.length a + String.length b)%nat.
Proof.
  induction a as [|ch a IH]; simpl; [reflexivity | now rewrite IH].
Qed.

Lemma all_ascii_app (a b : string) :
  all_ascii (a ++ b) = all_ascii a && all_ascii b.
Proof.
  induction a as [|ch a IH]; simpl; [reflexivity|].
  now rewrite IH, andb_assoc.
Qed.

Lemma all_hex_app (a b : string) :
  all_hex (a ++ b) = all_hex a && all_hex b.
Proof.
  induction a as [|ch a IH]; simpl; [reflexivity|].
  destruct (hex_val ch); [exact IH | reflexivity].
Qed.

Lemma hex_val_ascii (c : ascii) (d : Z) :
  hex_val c = Some d -> is_ascii c = true /\ 0 <= d < 16.
Proof.
  unfold hex_val, is_ascii.
  pose proof (N_ascii_bounded c) as Hb.
  destruct (N.ltb_spec (N_of_ascii c) 128) as [Hlt|Hge].
  - intros H; split; [reflexivity|].
    repeat match type of H with
           | (if ?t then _ else _) = _ =>
               let E := fresh "E" in destruct t eqn:E
           end; inversion H; subst; lia.
  - intros H.
    repeat match type of H with
           | (if ?t then _ else _) = _ =>
               let E := fresh "E" in destruct t eqn:E
           end; try discriminate; lia.
Qed.

Lemma all_hex_ascii (s : string) : all_hex s = true -> all_ascii s = true.
Proof.
  induction s as [|c s IH]; simpl; [reflexivity|].
  destruct (hex_val c) as [d|] eqn:E; [|discriminate].
  intros H. apply hex_val_ascii in E as [-> _]. now apply IH.
Qed.

Lemma hex_val_digit (d : Z) : 0 <= d < 16 -> hex_val (hex_digit d) = Some d.
Proof.
  intros H.
  assert (d = 0 \/ d = 1 \/ d = 2 \/ d = 3 \/ d = 4 \/ d = 5 \/ d = 6 \/ d = 7
          \/ d = 8 \/ d = 9 \/ d = 10 \/ d = 11 \/ d = 12 \/ d = 13 \/ d = 14
          \/ d = 15) as Hd by lia.
  repeat (destruct Hd as [->|Hd]; [reflexivity|]). subst d. reflexivity.
Qed.

Lemma fold_left_hex_params (l : list Z) (init : string) :
  fold_left (fun acc b => (acc ++ fmt_02x b)%string) l init
  = (init ++ hex_params l)%string.
Proof.
  revert init. induction l as [|b l IH]; intros init; simpl.
  - now rewrite string_app_nil_r.
  - now rewrite IH, string_app_assoc.
Qed.

Lemma char_command_text (cmd_id : string) (n : Z) (p : list Z) :
  char_command cmd_id n p
  = ("16" ++ (cmd_id ++ (fmt_02x n ++ (hex_params p ++ "0000"))))%string.
Proof.
  unfold char_command, SYN, LSB, MSB.
  rewrite fold_left_hex_params.
  change (fmt_02x 0 ++ fmt_02x 0)%string with "0000".
  now rewrite !string_app_assoc.
Qed.

Lemma string_pair_ind (P : string -> Prop) :
  P "" ->
  (forall c, P (String c "")) ->
  (forall a b s, P s -> P (String a (String b s))) ->
  forall s, P s.
Proof.
  intros H0 H1 H2 s.
  assert (P s /\ forall c, P (String c s)) as [H _]; [|exact H].
  induction s as [|c s [IHs IHc]]; split; auto.
Qed.

Lemma fmt_02x_byte (b : Z) :
  byte_range b ->
  fmt_02x b = String (hex_digit (b / 16)) (String (hex_digit (b mod 16)) "").
Proof.
  intros Hb.
  assert (forallb
            (fun n => String.eqb (fmt_02x (Z.of_nat n))
                        (String (hex_digit (Z.of_nat n / 16))
                           (String (hex_digit (Z.of_nat n mod 16)) "")))
            (seq 0 256) = true) as Hall by (vm_compute; reflexivity).
  rewrite forallb_forall in Hall.
  specialize (Hall (Z.to_nat b)).
  unfold byte_range in Hb.
  rewrite Z2Nat.id in Hall by lia.
  apply String.eqb_eq, Hall, in_seq. lia.
Qed.

Lemma byte_of_Z_of_byte (b : byte) : byte_of_Z (Z_of_byte b) = b.
Proof.
  unfold byte_of_Z, Z_of_byte. now rewrite N2Z.id, Byte.of_to_N.
Qed.

Lemma Z_of_byte_range (b : byte) : byte_range (Z_of_byte b).
Proof.
  unfold byte_range, Z_of_byte. pose proof (Byte.to_N_bounded b). lia.
Qed.

Lemma Z_of_byte_of_Z (z : Z) : byte_range z -> Z_of_byte (byte_of_Z z) = z.
Proof.
  unfold byte_range, byte_of_Z, Z_of_byte. intros Hz.
  destruct (Byte.of_N (Z.to_N z)) as [b|] eqn:E.
  - apply Byte.to_of_N in E. rewrite E. lia.
  - apply Byte.of_N_None_iff in E. lia.
Qed.

Lemma unhexlify_pairs_app (b1 : bytes) : forall (s1 s2 : string),
  unhexlify_pairs s1 = Ok b1 ->
  unhexlify_pairs (s1 ++ s2)
  = match unhexlify_pairs s2 with
    | Ok b2 => Ok (b1 ++ b2)
    | Raise e => Raise e
    end.
Proof.
  induction b1 as [|x b1 IH]; intros s1 s2 H.
  - destruct s1 as [|a [|b rest]]; cbn [unhexlify_pairs] in H;
      try discriminate.
    + cbn [append]. now destruct (unhexlify_pairs s2).
    + destruct (hex_val a), (hex_val b); try discriminate.
      destruct (unhexlify_pairs rest); discriminate.
  - destruct s1 as [|a [|b rest]]; cbn [unhexlify_pairs] in H;
      try discriminate.
    cbn [append unhexlify_pairs].
    destruct (hex_val a) as [h|]; [|discriminate].
    destruct (hex_val b) as [l|]; [|discriminate].
    destruct (unhexlify_pairs rest) as [bs|e] eqn:E; [|discriminate].
    injection H as Hx Hbs. subst x bs. rewrite (IH rest s2 E).
    now destruct (unhexlify_pairs s2).
Qed.

Lemma unhexlify_pairs_fmt_byte (b : Z) :
  byte_range b -> unhexlify_pairs (fmt_02x b) = Ok [byte_of_Z b].
Proof.
  intros Hb. rewrite (fmt_02x_byte b Hb). unfold byte_range in Hb.
  cbn [unhexlify_pairs].
  rewrite !hex_val_digit
    by (try apply Z.mod_pos_bound; try (split; [apply Z.div_pos | apply Z.div_lt_upper_bound]); lia).
  do 3 f_equal. pose proof (Z.div_mod b 16). lia.
Qed.

Lemma all_hex_fmt_byte (b : Z) : byte_range b -> all_hex (fmt_02x b) = true.
Proof.
  intros Hb. rewrite (fmt_02x_byte b Hb). unfold byte_range in Hb.
  cbn [all_hex].
  rewrite !hex_val_digit
    by (try apply Z.mod_pos_bound; try (split; [apply Z.div_pos | apply Z.div_lt_upper_bound]); lia).
  reflexivity.
Qed.

Lemma unhexlify_pairs_hex_params (p : list Z) :
  Forall byte_range p ->
  unhexlify_pairs (hex_params p) = Ok (map byte_of_Z p).
Proof.
  induction 1 as [|b p Hb _ IH]; simpl; [reflexivity|].
  now rewrite (unhexlify_pairs_app _ _ _ (unhexlify_pairs_fmt_byte b Hb)), IH.
Qed.

Lemma all_hex_hex_params (p : list Z) :
  Forall byte_range p -> all_hex (hex_params p) = true.
Proof.
  induction 1 as [|b p Hb _ IH]; simpl; [reflexivity|].
  now rewrite all_hex_app, all_hex_fmt_byte, IH.
Qed.

(** The text of a frame whose parts are all well-formed decodes to the
    frame [SYN | id | count | parameters | 00 00]. *)
Lemma unhexlify_char_command (cmd_id : string) (c_hi c_lo : byte)
    (n : Z) (p : list Z) :
  unhexlify cmd_id = Ok [c_hi; c_lo] ->
  byte_range n ->
  Forall byte_range p ->
  unhexlify (char_command cmd_id n p)
  = Ok ([x16; c_hi; c_lo; byte_of_Z n] ++ map byte_of_Z p ++ [x00; x00]).
Proof.
  intros Hc Hn Hp. unfold unhexlify in *.
  destruct (all_ascii cmd_id) eqn:Ea; [|discriminate].
  rewrite char_command_text, !all_ascii_app, Ea.
  rewrite (all_hex_ascii _ (all_hex_fmt_byte n Hn)).
  rewrite (all_hex_ascii _ (all_hex_hex_params p Hp)).
  simpl (all_ascii _). simpl (_ && _).
  rewrite (unhexlify_pairs_app [x16] "16" _ eq_refl).
  rewrite (unhexlify_pairs_app _ cmd_id _ Hc).
  rewrite (unhexlify_pairs_app _ _ _ (unhexlify_pairs_fmt_byte n Hn)).
  rewrite (unhexlify_pairs_app _ _ _ (unhexlify_pairs_hex_params p Hp)).
  reflexivity.
Qed.

Lemma hex_val_hex_digit_mod (n : Z) :
  hex_val (hex_digit (n mod 16)) = Some (n mod 16).
Proof. apply hex_val_digit, Z.mod_pos_bound. lia. Qed.

(** [hex] is read back by [int(_, 16)]: the fuel never runs out. *)
Lemma int16_digits_hex_digits (fuel : nat) : forall (n a : Z) (acc : string),
  0 <= n < 16 ^ (Z.of_nat fuel + 1) ->
  exists k, 0 <= k
    /\ int16_digits (hex_digits fuel n acc) a
       = int16_digits acc (a * 16 ^ (k + 1) + n).
Proof.
  induction fuel as [|fuel IH]; intros n a acc Hn.
  - exists 0. split; [lia|]. cbn [hex_digits int16_digits].
    change (16 ^ (Z.of_nat 0 + 1)) with 16 in Hn.
    rewrite Z.mod_small by lia. rewrite hex_val_digit by lia.
    f_equal. change (16 ^ (0 + 1)) with 16. lia.
  - cbn [hex_digits]. destruct (Z.ltb_spec n 16) as [Hlt|Hge].
    + exists 0. split; [lia|]. cbn [int16_digits].
      rewrite Z.mod_small by lia. rewrite hex_val_digit by lia.
      f_equal. change (16 ^ (0 + 1)) with 16. lia.
    + assert (0 <= n / 16 < 16 ^ (Z.of_nat fuel + 1)) as Hq.
      { replace (Z.of_nat (S fuel) + 1) with (Z.succ (Z.of_nat fuel + 1))
          in Hn by lia.
        rewrite Z.pow_succ_r in Hn by lia.
        split; [apply Z.div_pos; lia|].
        apply Z.div_lt_upper_bound; lia. }
      destruct (IH (n / 16) a (String (hex_digit (n mod 16)) acc) Hq)
        as (k & Hk & E).
      exists (k + 1). split; [lia|]. rewrite E. cbn [int16_digits].
      rewrite hex_val_hex_digit_mod. f_equal.
      replace (k + 1 + 1) with (Z.succ (k + 1)) by lia.
      rewrite Z.pow_succ_r by lia.
      pose proof (Z.div_mod n 16). lia.
Qed.

Lemma int16_digits_hex (n : Z) : 0 <= n -> int16_digits (hex n) 0 = Ok n.
Proof.
  intros Hn. unfold hex.
  assert (0 <= n < 16 ^ (Z.of_nat (Z.to_nat (Z.log2 n)) + 1)) as Hb.
  { split; [exact Hn|].
    pose proof (Z.log2_nonneg n) as Hl. rewrite Z2Nat.id by exact Hl.
    destruct (Z.eq_dec n 0) as [->|Hz]; [apply Z.pow_pos_nonneg; lia|].
    destruct (Z.log2_spec n) as [_ Hhi]; [lia|].
    eapply Z.lt_le_trans; [exact Hhi|].
    replace (Z.succ (Z.log2 n)) with (Z.log2 n + 1) by lia.
    apply Z.pow_le_mono_l. lia. }
  destruct (int16_digits_hex_digits _ n 0 "" Hb) as (k & _ & ->).
  reflexivity.
Qed.

(** ** The log and the transaction *)

(** [write_log] touches the console and the log file only, and it cannot
    fail on an object that keeps the invariant. *)
Lemma write_log_spec (msg : log_msg) (self : LandNSM10) :
  ser (snd (write_log msg self)) = ser self
  /\ serial_debug (snd (write_log msg self)) = serial_debug self
  /\ verbose (snd (write_log msg self)) = verbose self
  /\ connected (snd (write_log msg self)) = connected self
  /\ (log_ok self ->
      fst (write_log msg self) = Ok tt /\ log_ok (snd (write_log msg self))).
Proof.
  unfold write_log, log_ok. run_monad.
  destruct ((verbose self =? 1) || (verbose self =? 3));
    destruct ((verbose self =? 2) || (verbose self =? 3));
    destruct (logging self) eqn:El; destruct (log_file self) eqn:Ef;
    cbn; rewrite ?El, ?Ef; repeat split; auto; try discriminate;
    try (intros Hl; now exfalso; apply Hl);
    match goal with H : true = true -> None <> None |- _ =>
      now exfalso; apply H end.
Qed.

Lemma write_log_ok (msg : log_msg) (self : LandNSM10) :
  log_ok self ->
  exists self',
    write_log msg self = (Ok tt, self')
    /\ ser self' = ser self /\ serial_debug self' = serial_debug self
    /\ log_ok self'.
Proof.
  intros Hl. destruct (write_log_spec msg self) as (Hs & Hd & _ & _ & H).
  destruct (H Hl) as [Hr Hl']. exists (snd (write_log msg self)).
  repeat split; auto.
  destruct (write_log msg self) as [r self']; cbn in *. now subst r.
Qed.

Lemma log_ok_set_ser (s : option Serial) (self : LandNSM10) :
  log_ok self -> log_ok (set_ser s self).
Proof. unfold log_ok. destruct self; cbn. auto. Qed.

(** The guard of [send_command] fires: nothing reaches the port. *)
Lemma send_command_mismatch (cmd_id : string) (n_bytes : Z)
    (var_bytes : list Z) (n_ret_bytes : Z) (self : LandNSM10) :
  n_bytes <> Z.of_nat (List.length var_bytes) ->
  ser (snd (send_command cmd_id n_bytes var_bytes n_ret_bytes self)) = ser self
  /\ (serial_debug self = false ->
      send_command cmd_id n_bytes var_bytes n_ret_bytes self = (Ok None, self))
  /\ (log_ok self ->
      fst (send_command cmd_id n_bytes var_bytes n_ret_bytes self) = Ok None).
Proof.
  intros Hne. unfold send_command.
  destruct (Z.eqb_spec n_bytes (Z.of_nat (List.length var_bytes)));
    [contradiction|].
  cbn [negb]. run_monad.
  destruct (serial_debug self) eqn:Ed.
  - destruct (write_log_spec (MsgLengthError n_bytes
                (Z.of_nat (List.length var_bytes))) self)
      as (Hs & _ & _ & _ & Hok).
    destruct (write_log _ self) as [[[]|e] self']; cbn in *;
      repeat split; auto; try discriminate.
    intros Hl. now destruct (Hok Hl).
  - repeat split; auto.
Qed.

(** The guard passes and the text is malformed: [unhexlify] raises, and the
    object is as it was. *)
Lemma send_command_unhexlify_raises (cmd_id : string) (var_bytes : list Z)
    (n_ret_bytes : Z) (self : LandNSM10) (e : exn) :
  unhexlify (char_command cmd_id (Z.of_nat (List.length var_bytes)) var_bytes)
  = Raise e ->
  send_command cmd_id (Z.of_nat (List.length var_bytes)) var_bytes
    n_ret_bytes self = (Raise e, self).
Proof.
  intros H. unfold send_command. rewrite Z.eqb_refl. cbn [negb].
  run_monad. now rewrite H.
Qed.

(** The guard passes, the text is well-formed, and there is no port. *)
Lemma send_command_no_port (cmd_id : string) (var_bytes : list Z)
    (n_ret_bytes : Z) (self : LandNSM10) (frame : bytes) :
  unhexlify (char_command cmd_id (Z.of_nat (List.length var_bytes)) var_bytes)
  = Ok frame ->
  ser self = None ->
  send_command cmd_id (Z.of_nat (List.length var_bytes)) var_bytes
    n_ret_bytes self = (Raise AttributeError, self).
Proof.
  intros H Hs. unfold send_command, ser_write. rewrite Z.eqb_refl.
  cbn [negb]. run_monad. now rewrite H, Hs.
Qed.

(** The guard passes, the text is well-formed, and the port is open: the
    frame is appended to what the port has been sent, and the reply is
    whatever the port delivers. *)
Lemma send_command_writes (cmd_id : string) (var_bytes : list Z)
    (n_ret_bytes : Z) (self : LandNSM10) (s : Serial) (frame : bytes) :
  unhexlify (char_command cmd_id (Z.of_nat (List.length var_bytes)) var_bytes)
  = Ok frame ->
  ser self = Some s ->
  exists s',
    ser (snd (send_command cmd_id (Z.of_nat (List.length var_bytes))
                var_bytes n_ret_bytes self)) = Some s'
    /\ written s' = written s ++ frame
    /\ (log_ok self ->
        fst (send_command cmd_id (Z.of_nat (List.length var_bytes))
               var_bytes n_ret_bytes self)
        = Ok (Some (firstn (Z.to_nat n_ret_bytes) (incoming s)))
        /\ incoming s' = skipn (Z.to_nat n_ret_bytes) (incoming s)
        /\ log_ok (snd (send_command cmd_id
                          (Z.of_nat (List.length var_bytes))
                          var_bytes n_ret_bytes self))).
Proof.
  intros H Hs. unfold send_command, ser_write, ser_read.
  rewrite Z.eqb_refl. cbn [negb]. run_monad. rewrite H, Hs.
  set (self1 := set_ser (Some (serial_write s frame)) self).
  assert (ser self1 = Some (serial_write s frame)) as Hs1 by reflexivity.
  assert (serial_debug self1 = serial_debug self) as Hd1 by reflexivity.
  rewrite Hd1.
  destruct (serial_debug self) eqn:Ed.
  - destruct (write_log_spec
                (MsgSending (char_command cmd_id
                   (Z.of_nat (List.length var_bytes)) var_bytes)) self1)
      as (Hs2 & _ & _ & _ & Hok).
    destruct (write_log _ self1) as [[[]|e] self2]; cbn in *.
    + rewrite Hs2. cbn. eexists; split; [reflexivity|].
      split; [reflexivity|]. intros Hl.
      destruct (Hok (log_ok_set_ser _ _ Hl)) as [_ Hl2].
      repeat split; auto using log_ok_set_ser.
    + eexists; split; [exact Hs2|]. split; [reflexivity|].
      intros Hl. destruct (Hok (log_ok_set_ser _ _ Hl)); discriminate.
  - cbn. eexists; split; [reflexivity|]. split; [reflexivity|].
    intros Hl. repeat split; auto using log_ok_set_ser.
Qed.

(** ** The frame written by [send_command] *)

(** C1, as amended: on a driver whose port is open, for every command id
    given as the hexadecimal text of two bytes and every list [p] of at
    most 255 parameter bytes, each in 0..255, declared with its own
    length, [send_command] encodes and writes exactly the frame
    [16 | id | len p | p | 00 00]; the frame has [6 + len p] bytes, its byte
    at index 3 is [len p] and its last two bytes are zero. *)
Theorem send_command_frame (self : LandNSM10) (s : Serial) (cmd_id : string)
    (c_hi c_lo : byte) (p : list Z) (n_ret_bytes : Z) :
  ser self = Some s ->
  unhexlify cmd_id = Ok [c_hi; c_lo] ->
  Forall byte_range p ->
  (List.length p <= 255)%nat ->
  let n := Z.of_nat (List.length p) in
  let frame :=
    [x16; c_hi; c_lo; byte_of_Z n] ++ map byte_of_Z p ++ [x00; x00] in
  unhexlify (char_command cmd_id n p) = Ok frame
  /\ (exists s',
        ser (snd (send_command cmd_id n p n_ret_bytes self)) = Some s'
        /\ written s' = written s ++ frame)
  /\ List.length frame = (6 + List.length p)%nat
  /\ option_map Z_of_byte (nth_error frame 3) = Some n
  /\ skipn (4 + List.length p) frame = [x00; x00].
Proof.
  intros Hs Hc Hp Hlen n frame.
  assert (byte_range n) as Hn by (unfold byte_range, n; lia).
  pose proof (unhexlify_char_command cmd_id c_hi c_lo n p Hc Hn Hp) as Hu.
  split; [exact Hu|]. split.
  - destruct (send_command_writes cmd_id p n_ret_bytes self s frame Hu Hs)
      as (s' & Hs' & Hw & _).
    now exists s'.
  - unfold frame. repeat split.
    + cbn [List.length app]. rewrite length_app, length_map. cbn. lia.
    + cbn [app nth_error option_map]. now rewrite Z_of_byte_of_Z.
    + change (4 + List.length p)%nat
        with (S (S (S (S (List.length p))))).
      cbn [app skipn].
      rewrite <- (length_map byte_of_Z p) at 1.
      now rewrite skipn_app, skipn_all, Nat.sub_diag.
Qed.

Lemma send_command_frame_witness :
  exists s',
    ser (snd (send_command "0101" 1 [15] 10 quiet_driver)) = Some s'
    /\ written s' = [x16; x01; x01; x01; x0f; x00; x00].
Proof.
  destruct (send_command_frame quiet_driver quiet_port "0101" x01 x01 [15] 10)
    as (_ & (s' & Hs' & Hw) & _).
  - reflexivity.
  - reflexivity.
  - repeat constructor; unfold byte_range; lia.
  - simpl; lia.
  - exists s'. split; [exact Hs' | exact Hw].
Defined.

(** C1 as stated fails when [p] has 256 elements: the count prints as the
    three digits [100], the text has odd length, [unhexlify] raises and
    nothing is written. *)
Lemma send_command_frame_counterexample :
  Forall byte_range (repeat 0 256)
  /\ ser quiet_driver = Some quiet_port
  /\ unhexlify "0101" = Ok [x01; x01]
  /\ send_command "0101" 256 (repeat 0 256) 5 quiet_driver
     = (Raise BinasciiError, quiet_driver)
  /\ ~ (exists s' frame,
          ser (snd (send_command "0101" 256 (repeat 0 256) 5 quiet_driver))
          = Some s'
          /\ written s' = written quiet_port ++ frame
          /\ List.length frame = (6 + 256)%nat).
Proof.
  assert (send_command "0101" 256 (repeat 0 256) 5 quiet_driver
          = (Raise BinasciiError, quiet_driver)) as E
      by (vm_compute; reflexivity).
  split; [|split; [reflexivity | split; [reflexivity | split; [exact E|]]]].
  - apply Forall_forall. intros x Hx. apply repeat_spec in Hx. subst x.
    unfold byte_range; lia.
  - rewrite E. intros (s' & frame & Hs & Hw & Hl). cbn in Hs.
    injection Hs as <-. cbn in Hw. subst frame. discriminate Hl.
Qed.

(** ** A declared count that differs from the length *)

(** C3, as amended: when the declared count differs from the number of
    parameter bytes, [send_command] raises nothing: it returns [None], after
    logging the mismatch when [serial_debug] is set. *)
Theorem send_command_mismatch_returns_none (cmd_id : string) (n_bytes : Z)
    (var_bytes : list Z) (n_ret_bytes : Z) (self : LandNSM10) :
  log_ok self ->
  n_bytes <> Z.of_nat (List.length var_bytes) ->
  send_command cmd_id n_bytes var_bytes n_ret_bytes self
  = (Ok None,
     if serial_debug self
     then snd (write_log (MsgLengthError n_bytes
                            (Z.of_nat (List.length var_bytes))) self)
     else self).
Proof.
  intros Hl Hne. unfold send_command.
  destruct (Z.eqb_spec n_bytes (Z.of_nat (List.length var_bytes)));
    [contradiction|].
  cbn [negb]. run_monad.
  destruct (serial_debug self); [|reflexivity].
  destruct (write_log_ok (MsgLengthError n_bytes
              (Z.of_nat (List.length var_bytes))) self Hl) as (self' & E & _).
  now rewrite E.
Qed.

Lemma send_command_mismatch_returns_none_witness :
  send_command "0101" 1 [] 10 quiet_driver = (Ok None, quiet_driver).
Proof.
  apply (send_command_mismatch_returns_none "0101" 1 [] 10 quiet_driver).
  - intros H; discriminate H.
  - simpl; lia.
Defined.

(** C3 as stated fails: with a declared count of 1 and no parameter byte
    the call returns a plain [None] and raises no error. *)
Lemma send_command_mismatch_counterexample :
  1 <> Z.of_nat (List.length (@nil Z))
  /\ fst (send_command "0101" 1 [] 10 quiet_driver) = Ok None
  /\ forall e, fst (send_command "0101" 1 [] 10 quiet_driver) <> Raise e.
Proof.
  split; [simpl; lia|]. split; [reflexivity|]. intros e H. discriminate H.
Qed.

(** C7: when the declared count differs from the number of parameter
    bytes, [send_command] leaves the port as it was: nothing is written
    and nothing is read. *)
Theorem send_command_mismatch_no_write (cmd_id : string) (n_bytes : Z)
    (var_bytes : list Z) (n_ret_bytes : Z) (self : LandNSM10) :
  n_bytes <> Z.of_nat (List.length var_bytes) ->
  ser (snd (send_command cmd_id n_bytes var_bytes n_ret_bytes self))
  = ser self.
Proof.
  intros Hne.
  now destruct (send_command_mismatch cmd_id n_bytes var_bytes n_ret_bytes
                  self Hne).
Qed.

Lemma send_command_mismatch_no_write_witness :
  ser (snd (send_command "0048" 5 [15] 5 quiet_driver)) = Some quiet_port.
Proof.
  apply (send_command_mismatch_no_write "0048" 5 [15] 5 quiet_driver).
  simpl; lia.
Defined.

(** ** Construction without a port *)

Lemma init_no_port (v : Z) (sd log_opened : bool) (stdout : list log_msg) :
  fst (init v sd log_opened None stdout) = Ok tt
  /\ connected (snd (init v sd log_opened None stdout)) = false
  /\ ser (snd (init v sd log_opened None stdout)) = None
  /\ log_ok (snd (init v sd log_opened None stdout)).
Proof.
  unfold init, write_log, log_ok. run_monad.
  destruct ((v =? 2) || (v =? 3)) eqn:E23;
    destruct ((v =? 1) || (v =? 3)) eqn:E13;
    destruct log_opened; cbn; rewrite ?E23, ?E13; cbn;
    repeat split; auto; discriminate.
Qed.

(** [send_command] never creates a port. *)
Lemma send_command_keeps_no_port (cmd_id : string) (n_bytes : Z)
    (var_bytes : list Z) (n_ret_bytes : Z) (self : LandNSM10) :
  ser self = None ->
  ser (snd (send_command cmd_id n_bytes var_bytes n_ret_bytes self)) = None.
Proof.
  intros Hs.
  destruct (Z.eq_dec n_bytes (Z.of_nat (List.length var_bytes))) as [->|Hne].
  - destruct (unhexlify (char_command cmd_id
                (Z.of_nat (List.length var_bytes)) var_bytes)) as [frame|e]
      eqn:Eu.
    + now rewrite (send_command_no_port _ _ _ _ _ Eu Hs).
    + now rewrite (send_command_unhexlify_raises _ _ _ _ _ Eu).
  - destruct (send_command_mismatch cmd_id n_bytes var_bytes n_ret_bytes
                self Hne) as [-> _].
    exact Hs.
Qed.

(** C8, as amended: when the port cannot be opened the constructor still
    completes, leaving [connected] false and [ser] unset.  No later call
    tests [connected]: [send_command] never performs port I/O on such an
    object; with a matching count and well-formed text it raises
    [AttributeError] at [self.ser.write], leaving the object as it was,
    and with a mismatching count it returns [None] without any error. *)
Theorem disconnected_driver (v : Z) (sd log_opened : bool)
    (stdout : list log_msg) :
  let self := snd (init v sd log_opened None stdout) in
  fst (init v sd log_opened None stdout) = Ok tt
  /\ connected self = false
  /\ ser self = None
  /\ forall (cmd_id : string) (n_bytes : Z) (var_bytes : list Z)
       (n_ret_bytes : Z),
       ser (snd (send_command cmd_id n_bytes var_bytes n_ret_bytes self))
       = None
       /\ (forall frame,
             n_bytes = Z.of_nat (List.length var_bytes) ->
             unhexlify (char_command cmd_id n_bytes var_bytes) = Ok frame ->
             send_command cmd_id n_bytes var_bytes n_ret_bytes self
             = (Raise AttributeError, self))
       /\ (n_bytes <> Z.of_nat (List.length var_bytes) ->
           fst (send_command cmd_id n_bytes var_bytes n_ret_bytes self)
           = Ok None).
Proof.
  intros self.
  destruct (init_no_port v sd log_opened stdout) as (Hr & Hc & Hs & Hl).
  fold self in Hc, Hs, Hl.
  repeat split; auto.
  - now apply send_command_keeps_no_port.
  - intros frame -> Hu. now apply (send_command_no_port _ _ _ _ frame).
  - intros Hne.
    now destruct (send_command_mismatch cmd_id n_bytes var_bytes n_ret_bytes
                    self Hne) as (_ & _ & H); apply H.
Qed.

Lemma disconnected_driver_witness :
  send_command "0101" 1 [15] 10 (snd (init 1 true false None []))
  = (Raise AttributeError, snd (init 1 true false None []))
  /\ fst (send_command "0101" 1 [] 10 (snd (init 1 true false None [])))
     = Ok None.
Proof.
  destruct (disconnected_driver 1 true false []) as (_ & _ & _ & H).
  split.
  - destruct (H "0101" 1 [15] 10) as (_ & Hw & _).
    apply (Hw [x16; x01; x01; x01; x0f; x00; x00]); reflexivity.
  - destruct (H "0101" 1 [] 10) as (_ & _ & Hn).
    apply Hn. simpl; lia.
Defined.

(** C8 as stated fails: on a driver built without a port, a call with a
    mismatching count returns [None] and raises nothing, and a well-formed
    call raises the untyped [AttributeError] of [None.write]. *)
Lemma disconnected_driver_counterexample :
  let self := snd (init 0 false false None []) in
  connected self = false
  /\ ser self = None
  /\ send_command "0101" 1 [] 10 self = (Ok None, self)
  /\ (forall e, fst (send_command "0101" 1 [] 10 self) <> Raise e)
  /\ fst (position_inquiry 15 self) = Raise AttributeError.
Proof.
  cbv zeta. repeat split; try reflexivity.
  intros e H. discriminate H.
Qed.

(** ** [float_to_dec_bytes] *)

Lemma int16_hex_pair (b : byte) :
  int16 (String (hex_digit (Z_of_byte b / 16))
           (String (hex_digit (Z_of_byte b mod 16)) ""))
  = Ok (Z_of_byte b).
Proof.
  pose proof (Z_of_byte_range b) as Hb. unfold byte_range in Hb.
  unfold int16. cbn [int16_digits].
  rewrite !hex_val_digit
    by (try apply Z.mod_pos_bound;
        try (split; [apply Z.div_pos | apply Z.div_lt_upper_bound]); lia).
  f_equal. pose proof (Z.div_mod (Z_of_byte b) 16). lia.
Qed.

(** The detour through hexadecimal text only reverses the packed bytes. *)
Lemma float_to_dec_bytes_packed (x : pyfloat) (b0 b1 b2 b3 : byte) :
  struct_pack_be_f x = Ok [b0; b1; b2; b3] ->
  float_to_dec_bytes x
  = Ok [Z_of_byte b3; Z_of_byte b2; Z_of_byte b1; Z_of_byte b0].
Proof.
  intros H. unfold float_to_dec_bytes. rewrite H.
  cbn [hexlify]. unfold str_from, str_slice, str_to.
  cbn [String.length substring Nat.sub].
  now rewrite !int16_hex_pair.
Qed.

Lemma struct_pack_be_f_cases (x : pyfloat) :
  (is_infinity (double_to_single x) && negb (is_infinity x) = true
   /\ struct_pack_be_f x = Raise OverflowError)
  \/ (is_infinity (double_to_single x) && negb (is_infinity x) = false
      /\ struct_pack_be_f x = Ok (be32 (bits_of_single (double_to_single x)))).
Proof.
  unfold struct_pack_be_f.
  destruct (is_infinity (double_to_single x) && negb (is_infinity x));
    [left | right]; split; reflexivity.
Qed.

Lemma float_to_dec_bytes_shape (x : pyfloat) (dec : list Z) :
  float_to_dec_bytes x = Ok dec ->
  List.length dec = 4%nat /\ Forall byte_range dec
  /\ map byte_of_Z dec = rev (be32 (bits_of_single (double_to_single x))).
Proof.
  intros H.
  destruct (struct_pack_be_f_cases x) as [[_ E]|[_ E]].
  - unfold float_to_dec_bytes in H. rewrite E in H. discriminate.
  - unfold be32 in E. rewrite (float_to_dec_bytes_packed _ _ _ _ _ E) in H.
    injection H as <-. split; [reflexivity|]. split.
    + repeat constructor; apply Z_of_byte_range.
    + cbn [map]. now rewrite !byte_of_Z_of_byte.
Qed.

(** C9, as amended: for every finite float whose nearest single-precision
    value is finite, [float_to_dec_bytes] returns exactly four integers,
    each in 0..255, which are the four bytes of the big-endian binary32
    representation in reversed order, so that the list [axis] followed by
    them has the five elements [approach_position] declares.  A finite
    float that rounds to a single-precision infinity makes
    [struct.pack] raise [OverflowError] instead. *)
Theorem float_to_dec_bytes_four (x : pyfloat) :
  is_finite x = true ->
  (is_infinity (double_to_single x) = false ->
   exists b0 b1 b2 b3,
     be32 (bits_of_single (double_to_single x)) = [b0; b1; b2; b3]
     /\ struct_pack_be_f x = Ok [b0; b1; b2; b3]
     /\ float_to_dec_bytes x
        = Ok [Z_of_byte b3; Z_of_byte b2; Z_of_byte b1; Z_of_byte b0]
     /\ Forall byte_range
          [Z_of_byte b3; Z_of_byte b2; Z_of_byte b1; Z_of_byte b0]
     /\ forall axis : Z,
          5 = Z.of_nat (List.length
                ([axis] ++ [Z_of_byte b3; Z_of_byte b2; Z_of_byte b1;
                            Z_of_byte b0])))
  /\ (is_infinity (double_to_single x) = true ->
      float_to_dec_bytes x = Raise OverflowError).
Proof.
  intros Hf.
  assert (is_infinity x = false) as Hx by (destruct x; try discriminate; reflexivity).
  split; intros Hi.
  - destruct (struct_pack_be_f_cases x) as [[C _]|[_ E]].
    + rewrite Hi in C. discriminate.
    + unfold be32 in *. do 4 eexists. split; [reflexivity|].
      split; [exact E|]. split; [now apply float_to_dec_bytes_packed|].
      split; [repeat constructor; apply Z_of_byte_range | reflexivity].
  - unfold float_to_dec_bytes, struct_pack_be_f. now rewrite Hi, Hx.
Qed.

Lemma float_to_dec_bytes_four_witness :
  float_to_dec_bytes f_m100 = Ok [0; 0; 200; 194]
  /\ float_to_dec_bytes f_2p128 = Raise OverflowError.
Proof.
  destruct (float_to_dec_bytes_four f_m100 eq_refl) as [H _].
  destruct (H eq_refl) as (b0 & b1 & b2 & b3 & Hb & _ & Hd & _).
  vm_compute in Hb. injection Hb as <- <- <- <-.
  split; [exact Hd|].
  destruct (float_to_dec_bytes_four f_2p128 eq_refl) as [_ H2].
  apply H2. vm_compute. reflexivity.
Defined.

(** C9 as stated fails: [2 ** 128] is a finite float, and packing it as a
    single-precision float raises [OverflowError]. *)
Lemma float_to_dec_bytes_four_counterexample :
  is_finite f_2p128 = true
  /\ valid_binary prec64 emax64 f_2p128 = true
  /\ float_to_dec_bytes f_2p128 = Raise OverflowError
  /\ forall dec, float_to_dec_bytes f_2p128 <> Ok dec.
Proof.
  repeat split; try (vm_compute; reflexivity).
  intros dec H. vm_compute in H. discriminate H.
Qed.

(** ** [approach_position] *)

Lemma approach_cmd_id_text (absolute slow : bool) :
  exists cmd_id,
    approach_cmd_id absolute slow = Ok cmd_id
    /\ unhexlify cmd_id = Ok [x00; approach_opcode absolute slow].
Proof.
  destruct absolute, slow; eexists; split; reflexivity.
Qed.

(** Reversing is negating the position passed on. *)
Lemma approach_reverse_is_opp (axis : Z) (position : pyfloat)
    (absolute slow : bool) :
  approach_position axis position absolute slow true
  = approach_position axis (SFopp position) absolute slow false.
Proof. reflexivity. Qed.

Lemma approach_position_forward (axis : Z) (position : pyfloat)
    (absolute slow : bool) (self : LandNSM10) (s : Serial) (dec : list Z) :
  ser self = Some s ->
  log_ok self ->
  byte_range axis ->
  float_to_dec_bytes position = Ok dec ->
  exists s',
    ser (snd (approach_position axis position absolute slow false self))
    = Some s'
    /\ written s'
       = written s
         ++ [x16; x00; approach_opcode absolute slow; x05; byte_of_Z axis]
         ++ map byte_of_Z dec ++ [x00; x00]
    /\ fst (approach_position axis position absolute slow false self)
       = Ok (Some (firstn 5 (incoming s))).
Proof.
  intros Hs Hl Ha Hd.
  destruct (float_to_dec_bytes_shape _ _ Hd) as (Hlen & Hr & _).
  destruct (approach_cmd_id_text absolute slow) as (cmd_id & Hc & Hu).
  unfold approach_position. cbv zeta. run_monad. rewrite Hd, Hc.
  destruct (write_log_ok (MsgApproach axis absolute slow position) self Hl)
    as (self' & Hw & Hs' & _ & Hl').
  rewrite Hw. rewrite Hs in Hs'.
  assert (5 = Z.of_nat (List.length ([axis] ++ dec))) as E5
      by (cbn [app List.length]; rewrite Hlen; reflexivity).
  rewrite E5.
  assert (Forall byte_range ([axis] ++ dec)) as Hp by now constructor.
  assert (byte_range (Z.of_nat (List.length ([axis] ++ dec)))) as Hn
      by (rewrite <- E5; unfold byte_range; lia).
  pose proof (unhexlify_char_command cmd_id _ _ _ _ Hu Hn Hp) as Hf.
  destruct (send_command_writes cmd_id ([axis] ++ dec) 5 self' s _ Hf Hs')
    as (s' & Hser & Hwr & Hok).
  rewrite <- E5 in Hser, Hwr, Hok |- *.
  exists s'. destruct (Hok Hl') as (Hres & _ & _).
  repeat split; assumption.
Qed.

(** What a call of [approach_position] sends on an open port. *)
Lemma approach_position_written (axis : Z) (position : pyfloat)
    (absolute slow reverse : bool) (self : LandNSM10) (s : Serial)
    (dec : list Z) :
  ser self = Some s ->
  log_ok self ->
  byte_range axis ->
  float_to_dec_bytes (if reverse then SFopp position else position)
  = Ok dec ->
  exists s',
    ser (snd (approach_position axis position absolute slow reverse self))
    = Some s'
    /\ written s'
       = written s
         ++ [x16; x00; approach_opcode absolute slow; x05; byte_of_Z axis]
         ++ map byte_of_Z dec ++ [x00; x00]
    /\ fst (approach_position axis position absolute slow reverse self)
       = Ok (Some (firstn 5 (incoming s))).
Proof.
  intros Hs Hl Ha Hd. destruct reverse.
  - rewrite approach_reverse_is_opp.
    now apply approach_position_forward.
  - now apply approach_position_forward.
Qed.

(** C5: the opcode [approach_position] sends is read off the table on
    ([absolute], [slow]): the command id passed on is [0048], [0049],
    [004a] or [004b], and on an open port the frame written starts with
    [16 00] followed by that opcode. *)
Theorem approach_position_opcode (axis : Z) (position : pyfloat)
    (absolute slow reverse : bool) (self : LandNSM10) (s : Serial)
    (dec : list Z) :
  ser self = Some s ->
  log_ok self ->
  byte_range axis ->
  float_to_dec_bytes (if reverse then SFopp position else position)
  = Ok dec ->
  approach_cmd_id absolute slow
  = Ok match absolute, slow with
       | true, false => "0048"
       | true, true => "0049"
       | false, false => "004a"
       | false, true => "004b"
       end
  /\ exists s' rest,
       ser (snd (approach_position axis position absolute slow reverse self))
       = Some s'
       /\ written s'
          = written s
            ++ [x16; x00;
                match absolute, slow with
                | true, false => x48
                | true, true => x49
                | false, false => x4a
                | false, true => x4b
                end] ++ rest.
Proof.
  intros Hs Hl Ha Hd. split; [destruct absolute, slow; reflexivity|].
  destruct (approach_position_written axis position absolute slow reverse
              self s dec Hs Hl Ha Hd) as (s' & Hs' & Hw & _).
  exists s'. eexists. split; [exact Hs'|]. rewrite Hw.
  destruct absolute, slow; reflexivity.
Qed.

Lemma approach_position_opcode_witness :
  exists s' rest,
    ser (snd (approach_position 15 f_m100 false true false quiet_driver))
    = Some s'
    /\ written s' = [x16; x00; x4b] ++ rest.
Proof.
  destruct (approach_position_opcode 15 f_m100 false true false quiet_driver
              quiet_port [0; 0; 200; 194]) as (_ & s' & rest & Hs & Hw).
  - reflexivity.
  - intros H; discriminate H.
  - unfold byte_range; lia.
  - vm_compute; reflexivity.
  - exists s', rest. split; [exact Hs | exact Hw].
Defined.

(** C6: with [reverse] set, the four parameter bytes that follow the axis
    are those of [float_to_dec_bytes (- position)]: the sign is flipped on
    the float, before it is packed and its bytes reversed. *)
Theorem approach_position_reverse (axis : Z) (position : pyfloat)
    (absolute slow : bool) (self : LandNSM10) (s : Serial) (dec : list Z) :
  ser self = Some s ->
  log_ok self ->
  byte_range axis ->
  float_to_dec_bytes (SFopp position) = Ok dec ->
  exists s' opcode,
    ser (snd (approach_position axis position absolute slow true self))
    = Some s'
    /\ written s'
       = written s
         ++ [x16; x00; opcode; x05; byte_of_Z axis]
         ++ map byte_of_Z dec ++ [x00; x00].
Proof.
  intros Hs Hl Ha Hd.
  destruct (approach_position_written axis position absolute slow true
              self s dec Hs Hl Ha Hd) as (s' & Hs' & Hw & _).
  exists s', (approach_opcode absolute slow). split; assumption.
Qed.

Lemma approach_position_reverse_witness :
  exists s' opcode,
    ser (snd (approach_position 15 f_100 true true true quiet_driver))
    = Some s'
    /\ written s'
       = [x16; x00; opcode; x05; x0f; x00; x00; xc8; xc2; x00; x00].
Proof.
  destruct (approach_position_reverse 15 f_100 true true quiet_driver
              quiet_port [0; 0; 200; 194]) as (s' & opcode & Hs & Hw).
  - reflexivity.
  - intros H; discriminate H.
  - unfold byte_range; lia.
  - vm_compute; reflexivity.
  - exists s', opcode. split; [exact Hs | exact Hw].
Defined.

(** ** Single precision: widening, narrowing and the bit pattern *)

Lemma iter_pos_iter {A : Type} (f : A -> A) (p : positive) :
  forall x, iter_pos f p x = Pos.iter f x p.
Proof.
  induction p as [p IH|p IH|]; intros x; cbn [iter_pos Pos.iter].
  - now rewrite !IH, <- !Pos.iter_swap.
  - now rewrite !IH.
  - reflexivity.
Qed.

Lemma digits2_pos_shift (m k : positive) :
  digits2_pos (Pos.iter xO m k) = (digits2_pos m + k)%positive.
Proof.
  induction k as [|k IH] using Pos.peano_ind.
  - cbn. now rewrite Pos.add_1_r.
  - rewrite Pos.iter_succ. cbn [digits2_pos]. rewrite IH. lia.
Qed.

Lemma shr_shift (m k : positive) :
  iter_pos shr_1 k (Build_shr_record (Zpos (Pos.iter xO m k)) false false)
  = Build_shr_record (Zpos m) false false.
Proof.
  rewrite iter_pos_iter.
  induction k as [|k IH] using Pos.peano_ind.
  - reflexivity.
  - rewrite Pos.iter_succ_r, Pos.iter_succ. cbn [shr_1 orb]. exact IH.
Qed.

Lemma digits2_pos_bounds (m : positive) :
  2 ^ (Zpos (digits2_pos m) - 1) <= Zpos m < 2 ^ Zpos (digits2_pos m).
Proof.
  induction m as [m IH|m IH|]; cbn [digits2_pos].
  - rewrite Pos2Z.inj_succ.
    assert (Zpos m~1 = 2 * Zpos m + 1) as -> by reflexivity.
    replace (Z.succ (Zpos (digits2_pos m)) - 1)
      with (Z.succ (Zpos (digits2_pos m) - 1)) by lia.
    rewrite !Z.pow_succ_r by lia. lia.
  - rewrite Pos2Z.inj_succ.
    assert (Zpos m~0 = 2 * Zpos m) as -> by reflexivity.
    replace (Z.succ (Zpos (digits2_pos m)) - 1)
      with (Z.succ (Zpos (digits2_pos m) - 1)) by lia.
    rewrite !Z.pow_succ_r by lia. lia.
  - cbn. lia.
Qed.

(** What [bounded] says of a binary32 mantissa and exponent. *)
Lemma bounded32_inv (m : positive) (e : Z) :
  bounded prec32 emax32 m e = true ->
  -149 <= e <= 104
  /\ Zpos (digits2_pos m) <= 24
  /\ Zpos m < 2 ^ 24
  /\ (Zpos m < 2 ^ 23 -> e = -149)
  /\ (2 ^ 23 <= Zpos m -> Zpos (digits2_pos m) = 24)
  /\ fexp prec32 emax32 (Zpos (digits2_pos m) + e) = e.
Proof.
  unfold bounded, canonical_mantissa. intros H.
  apply andb_true_iff in H as [Hc He].
  apply Z.eqb_eq in Hc. apply Z.leb_le in He.
  pose proof (digits2_pos_bounds m) as [Hlo Hhi].
  assert (Hf := Hc). unfold fexp, emin, prec32, emax32 in Hc, He.
  assert (Zpos (digits2_pos m) <= 24) as Hd by lia.
  assert (Zpos m < 2 ^ 24) as Hm.
  { eapply Z.lt_le_trans; [exact Hhi|]. apply Z.pow_le_mono_r; lia. }
  repeat split; try lia; try assumption.
  - intros Hsmall.
    destruct (Z.eq_dec (Zpos (digits2_pos m)) 24) as [E|E]; [|lia].
    rewrite E in Hlo. change (2 ^ (24 - 1)) with (2 ^ 23) in Hlo. lia.
  - intros Hbig.
    destruct (Z.eq_dec (Zpos (digits2_pos m)) 24) as [E|E]; [exact E|].
    assert (2 ^ Zpos (digits2_pos m) <= 2 ^ 23)
      by (apply Z.pow_le_mono_r; lia).
    lia.
Qed.

Lemma shr_fexp_exact (prec emax : Z) (m : positive) (e : Z) :
  fexp prec emax (Zpos (digits2_pos m) + e) = e ->
  shr_fexp prec emax (Zpos m) e loc_Exact
  = (Build_shr_record (Zpos m) false false, e).
Proof.
  intros H. unfold shr_fexp. cbn [Zdigits2 shr_record_of_loc].
  now rewrite H, Z.sub_diag.
Qed.

Lemma binary_round_aux_canonical (prec emax : Z) (s : bool) (m : positive)
    (e : Z) :
  fexp prec emax (Zpos (digits2_pos m) + e) = e ->
  e <= emax - prec ->
  binary_round_aux prec emax s (Zpos m) e loc_Exact = S754_finite s m e.
Proof.
  intros Hc He. unfold binary_round_aux.
  rewrite (shr_fexp_exact _ _ _ _ Hc).
  cbn [shr_m loc_of_shr_record round_nearest_even].
  rewrite (shr_fexp_exact _ _ _ _ Hc). cbn [shr_m].
  apply Z.leb_le in He. now rewrite He.
Qed.

(** Widening a finite binary32 value pads the mantissa to 53 bits. *)
Lemma single_to_double_finite (s : bool) (m : positive) (e : Z) :
  bounded prec32 emax32 m e = true ->
  exists k : positive,
    Zpos k = 53 - Zpos (digits2_pos m)
    /\ single_to_double (S754_finite s m e)
       = S754_finite s (Pos.iter xO m k) (e - Zpos k).
Proof.
  intros Hb. destruct (bounded32_inv m e Hb) as (He & Hd & _).
  pose proof (Pos2Z.is_pos (digits2_pos m)) as Hpos.
  unfold single_to_double, binary_round.
  assert (fexp prec64 emax64 (Zpos (digits2_pos m) + e)
          = Zpos (digits2_pos m) + e - 53) as Hf
      by (unfold fexp, emin, prec64, emax64; lia).
  rewrite Hf. unfold shl_align.
  destruct (Zpos (digits2_pos m) + e - 53 - e) as [|k|k] eqn:Ek; try lia.
  exists k. split; [lia|].
  replace (Zpos (digits2_pos m) + e - 53) with (e - Zpos k) by lia.
  apply binary_round_aux_canonical.
  - rewrite digits2_pos_shift, Pos2Z.inj_add.
    unfold fexp, emin, prec64, emax64. lia.
  - unfold prec64, emax64. lia.
Qed.

(** Narrowing the widened value gives the binary32 value back. *)
Lemma double_to_single_to_double (v : spec_float) :
  valid_binary prec32 emax32 v = true ->
  double_to_single (single_to_double v) = v.
Proof.
  destruct v as [s|s| |s m e]; try reflexivity.
  cbn [valid_binary]. intros Hb.
  destruct (single_to_double_finite s m e Hb) as (k & Hk & ->).
  destruct (bounded32_inv m e Hb) as (He & Hd & _ & _ & _ & Hc).
  unfold double_to_single, binary_round.
  assert (fexp prec32 emax32
            (Zpos (digits2_pos (Pos.iter xO m k)) + (e - Zpos k)) = e) as Hf.
  { rewrite digits2_pos_shift, Pos2Z.inj_add. rewrite <- Hc at 2.
    f_equal. lia. }
  rewrite Hf. unfold shl_align.
  destruct (e - (e - Zpos k)) as [|j|j] eqn:Ej; try lia.
  unfold binary_round_aux, shr_fexp at 1.
  cbn [Zdigits2 shr_record_of_loc]. rewrite Hf, Ej. unfold shr.
  replace j with k by lia. rewrite shr_shift.
  cbn [shr_m loc_of_shr_record round_nearest_even].
  replace (e - Zpos k + Zpos k) with e by lia.
  rewrite (shr_fexp_exact _ _ _ _ Hc). cbn [shr_m].
  replace (e <=? emax32 - prec32) with true
    by (symmetry; apply Z.leb_le; unfold emax32, prec32; lia).
  reflexivity.
Qed.

Lemma single_fields (s : bool) (ex frac : Z) :
  0 <= ex < 256 ->
  0 <= frac < 2 ^ 23 ->
  Z.testbit (sign_bit s + ex * 2 ^ 23 + frac) 31 = s
  /\ ((sign_bit s + ex * 2 ^ 23 + frac) / 2 ^ 23) mod 256 = ex
  /\ (sign_bit s + ex * 2 ^ 23 + frac) mod 2 ^ 23 = frac.
Proof.
  intros Hex Hfrac. unfold sign_bit.
  change (2 ^ 23) with 8388608 in *.
  split; [|split].
  - destruct s; [apply Z.testbit_true | apply Z.testbit_false]; try lia;
      change (2 ^ 31) with 2147483648; Z.div_mod_to_equations; lia.
  - destruct s; change (2 ^ 31) with 2147483648;
      Z.div_mod_to_equations; lia.
  - destruct s; change (2 ^ 31) with 2147483648;
      Z.div_mod_to_equations; lia.
Qed.

Lemma single_of_fields (s : bool) (ex frac : Z) :
  0 <= ex < 256 ->
  0 <= frac < 2 ^ 23 ->
  single_of_bits (sign_bit s + ex * 2 ^ 23 + frac)
  = if ex =? 255 then
      if frac =? 0 then S754_infinity s else S754_nan
    else if ex =? 0 then
      match frac with
      | Zpos m => S754_finite s m (-149)
      | _ => S754_zero s
      end
    else
      match frac + 2 ^ 23 with
      | Zpos m => S754_finite s m (ex - 150)
      | _ => S754_nan
      end.
Proof.
  intros Hex Hfrac.
  destruct (single_fields s ex frac Hex Hfrac) as (H1 & H2 & H3).
  unfold single_of_bits. cbv zeta. now rewrite H1, H2, H3.
Qed.

(** The bit pattern of a binary32 value fits 32 bits and determines it. *)
Lemma bits_of_single_fields (v : spec_float) :
  valid_binary prec32 emax32 v = true ->
  exists s ex frac,
    0 <= ex < 256 /\ 0 <= frac < 2 ^ 23
    /\ bits_of_single v = sign_bit s + ex * 2 ^ 23 + frac
    /\ single_of_bits (bits_of_single v) = v.
Proof.
  destruct v as [s|s| |s m e]; cbn [valid_binary bits_of_single]; intros Hb.
  - exists s, 0, 0. repeat split; try lia.
    destruct s; vm_compute; reflexivity.
  - exists s, 255, 0. repeat split; try lia.
    destruct s; vm_compute; reflexivity.
  - exists false, 255, (2 ^ 22). repeat split; try lia; reflexivity.
  - destruct (bounded32_inv m e Hb) as (He & _ & Hm & Hsub & _).
    change (2 ^ 24) with 16777216 in Hm.
    destruct (Z.ltb_spec (Zpos m) (2 ^ 23)) as [Hlt|Hge].
    + specialize (Hsub Hlt). subst e.
      exists s, 0, (Zpos m). repeat split; try lia.
      replace (sign_bit s + Zpos m) with (sign_bit s + 0 * 2 ^ 23 + Zpos m)
        by lia.
      rewrite single_of_fields by lia. reflexivity.
    + change (2 ^ 23) with 8388608 in *.
      exists s, (e + 150), (Zpos m - 8388608). repeat split; try lia.
      change 8388608 with (2 ^ 23).
      rewrite single_of_fields
        by (change (2 ^ 23) with 8388608; lia).
      destruct (Z.eqb_spec (e + 150) 255); [lia|].
      destruct (Z.eqb_spec (e + 150) 0); [lia|].
      replace (Zpos m - 2 ^ 23 + 2 ^ 23) with (Zpos m) by lia.
      f_equal. lia.
Qed.

Lemma le32_be32 (w : Z) :
  0 <= w < 2 ^ 32 ->
  le32 (byte_of_Z (w mod 256)) (byte_of_Z ((w / 2 ^ 8) mod 256))
    (byte_of_Z ((w / 2 ^ 16) mod 256)) (byte_of_Z (w / 2 ^ 24)) = w.
Proof.
  intros Hw. unfold le32.
  change (2 ^ 32) with 4294967296 in Hw.
  change (2 ^ 8) with 256. change (2 ^ 16) with 65536.
  change (2 ^ 24) with 16777216.
  rewrite !Z_of_byte_of_Z
    by (unfold byte_range; Z.div_mod_to_equations; lia).
  Z.div_mod_to_equations. lia.
Qed.


(** Packing a widened binary32 value never overflows, and unpacking the
    reversed bytes gives the value back. *)
Lemma pack_unpack_single (v : spec_float) :
  valid_binary prec32 emax32 v = true ->
  exists b0 b1 b2 b3,
    struct_pack_be_f (single_to_double v) = Ok [b0; b1; b2; b3]
    /\ struct_unpack_f [b3; b2; b1; b0] = Ok (single_to_double v).
Proof.
  intros Hv.
  destruct (bits_of_single_fields v Hv)
    as (s & ex & frac & Hex & Hfrac & Hw & Hback).
  unfold struct_pack_be_f. rewrite (double_to_single_to_double v Hv).
  assert (is_infinity v && negb (is_infinity (single_to_double v)) = false)
    as -> by (destruct v; reflexivity).
  unfold be32. do 4 eexists. split; [reflexivity|].
  unfold struct_unpack_f, native_byteorder.
  rewrite le32_be32, Hback; [reflexivity|].
  rewrite Hw. unfold sign_bit.
  change (2 ^ 23) with 8388608 in *. change (2 ^ 32) with 4294967296.
  destruct s; change (2 ^ 31) with 2147483648; lia.
Qed.

(** ** Replies shorter than expected *)

Lemma struct_unpack_f_length (b : bytes) :
  List.length b <> 4%nat -> struct_unpack_f b = Raise StructError.
Proof.
  destruct b as [|b0 [|b1 [|b2 [|b3 [|b4 b]]]]]; cbn; intros H;
    try reflexivity; contradiction.
Qed.

Lemma slice_4_8_length (ans : bytes) :
  List.length (slice 4 8 ans) = Nat.min 4 (List.length ans - 4).
Proof.
  unfold slice. now rewrite length_firstn, length_skipn.
Qed.

(** [position_inquiry] on an open port: the frame goes out, and the result
    is whatever [struct.unpack] makes of bytes 4 to 7 of the reply. *)
Lemma position_inquiry_run (axis : Z) (self : LandNSM10) (s : Serial) :
  ser self = Some s ->
  log_ok self ->
  byte_range axis ->
  fst (position_inquiry axis self)
  = struct_unpack_f (slice 4 8 (firstn 10 (incoming s)))
  /\ exists s',
       ser (snd (position_inquiry axis self)) = Some s'
       /\ written s'
          = written s ++ [x16; x01; x01; x01; byte_of_Z axis; x00; x00].
Proof.
  intros Hs Hl Ha. unfold position_inquiry. cbv zeta. run_monad.
  destruct (write_log_ok (MsgQueryPosition axis) self Hl)
    as (self1 & Hw1 & Hs1 & _ & Hl1).
  rewrite Hw1. rewrite Hs in Hs1.
  assert (unhexlify (char_command "0101" (Z.of_nat (List.length [axis]))
                       [axis])
          = Ok ([x16; x01; x01; byte_of_Z 1] ++ map byte_of_Z [axis]
                ++ [x00; x00])) as Hu.
  { apply unhexlify_char_command; [reflexivity | unfold byte_range; cbn; lia |].
    now constructor. }
  destruct (send_command_writes "0101" [axis] 10 self1 s _ Hu Hs1)
    as (s' & Hs' & Hwr & Hok).
  destruct (Hok Hl1) as (Hres & _ & Hl2).
  change (Z.of_nat (List.length [axis])) with 1 in *.
  destruct (send_command "0101" 1 [axis] 10 self1) as [r self2].
  cbn [fst snd] in *. subst r.
  change (Z.to_nat 10) with 10%nat.
  destruct (struct_unpack_f (slice 4 8 (firstn 10 (incoming s))))
    as [position|e].
  - destruct (write_log_ok (MsgPosition axis position) self2 Hl2)
      as (self3 & Hw3 & Hs3 & _).
    rewrite Hw3. cbn. split; [reflexivity|].
    exists s'. rewrite Hs3. split; assumption.
  - cbn. split; [reflexivity|]. exists s'. split; assumption.
Qed.

(** ** Round trip of a position through the wire format *)

(** Every 32-bit pattern that is not a NaN is the pattern of a binary32
    value: the values the round trip ranges over are all of them. *)
Lemma single_of_bits_valid (w : Z) :
  0 <= w < 2 ^ 32 ->
  single_of_bits w <> S754_nan ->
  valid_binary prec32 emax32 (single_of_bits w) = true
  /\ bits_of_single (single_of_bits w) = w.
Proof.
  intros Hw.
  set (s := Z.testbit w 31).
  set (ex := (w / 2 ^ 23) mod 256).
  set (frac := w mod 2 ^ 23).
  assert (0 <= ex < 256) as Hex by (apply Z.mod_pos_bound; lia).
  assert (0 <= frac < 2 ^ 23) as Hfrac by (apply Z.mod_pos_bound; lia).
  assert (w = sign_bit s + ex * 2 ^ 23 + frac) as Ew.
  { unfold sign_bit, s, ex, frac.
    destruct (Z.testbit w 31) eqn:Eb.
    - apply Z.testbit_true in Eb; [|lia].
      change (2 ^ 32) with 4294967296 in Hw.
      change (2 ^ 31) with 2147483648 in *.
      change (2 ^ 23) with 8388608. Z.div_mod_to_equations. lia.
    - apply Z.testbit_false in Eb; [|lia].
      change (2 ^ 32) with 4294967296 in Hw.
      change (2 ^ 31) with 2147483648 in *.
      change (2 ^ 23) with 8388608. Z.div_mod_to_equations. lia. }
  rewrite Ew at 1 2 3. rewrite (single_of_fields s ex frac Hex Hfrac).
  change (2 ^ 23) with 8388608 in *.
  destruct (Z.eqb_spec ex 255) as [E255|N255].
  - destruct (Z.eqb_spec frac 0) as [E0|N0]; [|intros H; now contradiction H].
    intros _. split; [reflexivity|]. cbn [bits_of_single].
    rewrite Ew, E255, E0. change (2 ^ 23) with 8388608. lia.
  - destruct (Z.eqb_spec ex 0) as [Ez|Nz].
    + destruct frac as [|m|m] eqn:Ef; try lia; intros _.
      * split; [reflexivity|]. cbn [bits_of_single]. rewrite Ew, Ez. lia.
      * pose proof (digits2_pos_bounds m) as [Hlo Hhi].
        assert (Zpos (digits2_pos m) <= 23) as Hd.
        { destruct (Z.le_gt_cases (Zpos (digits2_pos m)) 23) as [H|H];
            [exact H|].
          assert (2 ^ 23 <= 2 ^ (Zpos (digits2_pos m) - 1))
            by (apply Z.pow_le_mono_r; lia).
          change (2 ^ 23) with 8388608 in *. lia. }
        split.
        -- cbn [valid_binary]. unfold bounded, canonical_mantissa.
           apply andb_true_iff. split;
             [apply Z.eqb_eq | apply Z.leb_le];
             unfold fexp, emin, prec32, emax32; lia.
        -- cbn [bits_of_single]. change (2 ^ 23) with 8388608.
           destruct (Z.ltb_spec (Zpos m) 8388608); [|lia].
           rewrite Ew, Ez. lia.
    + destruct (frac + 8388608) as [|m|m] eqn:Ef; try lia; intros _.
      pose proof (digits2_pos_bounds m) as [Hlo Hhi].
      assert (Zpos (digits2_pos m) = 24) as Hd.
      { destruct (Z.lt_trichotomy (Zpos (digits2_pos m)) 24) as [H|[H|H]];
          [|exact H|].
        - assert (2 ^ Zpos (digits2_pos m) <= 2 ^ 23)
            by (apply Z.pow_le_mono_r; lia).
          change (2 ^ 23) with 8388608 in *. lia.
        - assert (2 ^ 24 <= 2 ^ (Zpos (digits2_pos m) - 1))
            by (apply Z.pow_le_mono_r; lia).
          change (2 ^ 24) with 16777216 in *. lia. }
      split.
      * cbn [valid_binary]. unfold bounded, canonical_mantissa.
        apply andb_true_iff. split;
          [apply Z.eqb_eq | apply Z.leb_le];
          unfold fexp, emin, prec32, emax32; lia.
      * cbn [bits_of_single]. change (2 ^ 23) with 8388608.
        destruct (Z.ltb_spec (Zpos m) 8388608); [lia|].
        rewrite Ew. change (2 ^ 23) with 8388608. lia.
Qed.



(** C4, as amended: no length check is made on the reply.  [send_command]
    returns whatever the port delivered.  In [position_inquiry], a reply of
    fewer than 8 bytes leaves fewer than four bytes in [ans[4:8]], so
    [struct.unpack] raises [struct.error] and no float is decoded; a reply
    of 8 or 9 bytes is decoded like a complete one. *)
Theorem position_inquiry_short_reply (axis : Z) (self : LandNSM10)
    (s : Serial) :
  ser self = Some s ->
  log_ok self ->
  byte_range axis ->
  let reply := firstn 10 (incoming s) in
  fst (send_command "0101" 1 [axis] 10 self) = Ok (Some reply)
  /\ ((List.length reply < 8)%nat ->
      fst (position_inquiry axis self) = Raise StructError)
  /\ ((8 <= List.length reply)%nat ->
      exists b4 b5 b6 b7,
        slice 4 8 reply = [b4; b5; b6; b7]
        /\ fst (position_inquiry axis self)
           = Ok (single_to_double (single_of_bits (le32 b4 b5 b6 b7)))).
Proof.
  intros Hs Hl Ha reply.
  destruct (position_inquiry_run axis self s Hs Hl Ha) as [Hrun _].
  fold reply in Hrun. split; [|split].
  - assert (unhexlify (char_command "0101" (Z.of_nat (List.length [axis]))
                         [axis])
            = Ok ([x16; x01; x01; byte_of_Z 1] ++ map byte_of_Z [axis]
                  ++ [x00; x00])) as Hu.
    { apply unhexlify_char_command;
        [reflexivity | unfold byte_range; cbn; lia |].
      now constructor. }
    destruct (send_command_writes "0101" [axis] 10 self s _ Hu Hs)
      as (s' & _ & _ & Hok).
    now destruct (Hok Hl) as (Hres & _).
  - intros Hshort. rewrite Hrun. apply struct_unpack_f_length.
    rewrite slice_4_8_length. lia.
  - intros Hlong. rewrite Hrun.
    pose proof (slice_4_8_length reply) as Hlen.
    assert ((List.length reply <= 10)%nat) as Hmax
        by (unfold reply; rewrite length_firstn; lia).
    destruct (slice 4 8 reply) as [|b4 [|b5 [|b6 [|b7 [|b8 l]]]]];
      cbn [List.length] in Hlen; try lia.
    exists b4, b5, b6, b7. split; reflexivity.
Qed.

Lemma position_inquiry_short_reply_witness :
  fst (position_inquiry 15 (driver_with_reply [x00; x01; x02]))
  = Raise StructError
  /\ exists b4 b5 b6 b7,
       fst (position_inquiry 15
              (driver_with_reply
                 [x00; x00; x00; x00; x00; x00; xc8; xc2; x00]))
       = Ok (single_to_double (single_of_bits (le32 b4 b5 b6 b7))).
Proof.
  split.
  - destruct (position_inquiry_short_reply 15
                (driver_with_reply [x00; x01; x02])
                (mkSerial [] [x00; x01; x02])) as (_ & H & _).
    + reflexivity.
    + intros E; discriminate E.
    + unfold byte_range; lia.
    + apply H. simpl; lia.
  - destruct (position_inquiry_short_reply 15
                (driver_with_reply
                   [x00; x00; x00; x00; x00; x00; xc8; xc2; x00])
                (mkSerial [] [x00; x00; x00; x00; x00; x00; xc8; xc2; x00]))
      as (_ & _ & H).
    + reflexivity.
    + intros E; discriminate E.
    + unfold byte_range; lia.
    + destruct H as (b4 & b5 & b6 & b7 & _ & Hr); [simpl; lia|].
      exists b4, b5, b6, b7. exact Hr.
Defined.

(** C4 as stated fails: with only 8 of the 10 expected bytes delivered,
    [position_inquiry] raises nothing and returns the float decoded from
    the truncated reply; with only 3 bytes delivered [send_command] returns
    them without any error. *)
Lemma position_inquiry_short_reply_counterexample :
  (List.length [x00; x00; x00; x00; x00; x00; xc8; xc2] < 10)%nat
  /\ fst (position_inquiry 15
            (driver_with_reply [x00; x00; x00; x00; x00; x00; xc8; xc2]))
     = Ok f_m100
  /\ fst (send_command "0101" 1 [15] 10 (driver_with_reply [x00; x01; x02]))
     = Ok (Some [x00; x01; x02]).
Proof.
  split; [simpl; lia|]. split; vm_compute; reflexivity.
Qed.

(** ** Parameters outside 0..255 *)

Lemma all_hex_hex_digits (fuel : nat) : forall (n : Z) (acc : string),
  all_hex acc = true -> all_hex (hex_digits fuel n acc) = true.
Proof.
  induction fuel as [|fuel IH]; intros n acc Hacc; cbn [hex_digits].
  - cbn [all_hex]. now rewrite hex_val_hex_digit_mod.
  - destruct (n <? 16).
    + cbn [all_hex]. now rewrite hex_val_hex_digit_mod.
    + apply IH. cbn [all_hex]. now rewrite hex_val_hex_digit_mod.
Qed.

Lemma length_hex_digits (fuel : nat) : forall (n : Z) (acc : string),
  (S (String.length acc) <= String.length (hex_digits fuel n acc))%nat.
Proof.
  induction fuel as [|fuel IH]; intros n acc; cbn [hex_digits].
  - cbn. lia.
  - destruct (n <? 16); [cbn; lia|].
    specialize (IH (n / 16) (String (hex_digit (n mod 16)) acc)).
    cbn [String.length] in IH. lia.
Qed.

Lemma all_hex_fmt_02x (b : Z) : 0 <= b -> all_hex (fmt_02x b) = true.
Proof.
  intros Hb. unfold fmt_02x, hex.
  destruct (Z.ltb_spec b 0); [lia|].
  pose proof (all_hex_hex_digits (Z.to_nat (Z.log2 b)) b "" eq_refl) as Hh.
  destruct (_ <? 2)%nat; [|exact Hh].
  cbn [all_hex hex_val]. exact Hh.
Qed.

Lemma all_hex_fmt_02x_negative (b : Z) : b < 0 -> all_hex (fmt_02x b) = false.
Proof.
  intros Hb. unfold fmt_02x.
  destruct (Z.ltb_spec b 0); [reflexivity | lia].
Qed.

Lemma all_ascii_fmt_02x (b : Z) : all_ascii (fmt_02x b) = true.
Proof.
  destruct (Z.ltb_spec b 0) as [Hneg|Hpos].
  - unfold fmt_02x. destruct (Z.ltb_spec b 0); [|lia].
    cbn [all_ascii]. apply andb_true_iff. split; [reflexivity|].
    apply all_hex_ascii. unfold hex. now apply all_hex_hex_digits.
  - now apply all_hex_ascii, all_hex_fmt_02x.
Qed.

Lemma length_fmt_02x (b : Z) :
  0 <= b ->
  (2 <= String.length (fmt_02x b))%nat
  /\ (255 < b -> (3 <= String.length (fmt_02x b))%nat).
Proof.
  intros Hb. unfold fmt_02x. destruct (Z.ltb_spec b 0); [lia|].
  split.
  - destruct (Nat.ltb_spec (String.length (hex b)) 2); [|assumption].
    pose proof (length_hex_digits (Z.to_nat (Z.log2 b)) b ""). unfold hex.
    cbn [String.length] in *. lia.
  - intros Hbig.
    assert (8 <= Z.log2 b) as Hlog
        by (change 8 with (Z.log2 256); apply Z.log2_le_mono; lia).
    assert ((3 <= String.length (hex b))%nat) as H3.
    { unfold hex.
      destruct (Z.to_nat (Z.log2 b)) as [|[|fuel]] eqn:Ef; try lia.
      cbn [hex_digits].
      destruct (Z.ltb_spec b 16); [lia|].
      destruct (Z.ltb_spec (b / 16) 16) as [Hq|Hq].
      - exfalso. Z.div_mod_to_equations. lia.
      - pose proof (length_hex_digits fuel (b / 16 / 16)
                      (String (hex_digit ((b / 16) mod 16))
                         (String (hex_digit (b mod 16)) ""))) as Hl.
        cbn [String.length] in Hl. exact Hl. }
    destruct (Nat.ltb_spec (String.length (hex b)) 2); [lia | exact H3].
Qed.

Lemma all_ascii_hex_params (p : list Z) : all_ascii (hex_params p) = true.
Proof.
  induction p as [|b p IH]; cbn [hex_params]; [reflexivity|].
  now rewrite all_ascii_app, all_ascii_fmt_02x, IH.
Qed.

Lemma all_hex_hex_params_nonneg (p : list Z) :
  Forall (fun b => 0 <= b) p -> all_hex (hex_params p) = true.
Proof.
  induction 1 as [|b p Hb _ IH]; cbn [hex_params]; [reflexivity|].
  now rewrite all_hex_app, all_hex_fmt_02x, IH.
Qed.

Lemma all_hex_hex_params_negative (p : list Z) :
  Exists (fun b => b < 0) p -> all_hex (hex_params p) = false.
Proof.
  induction 1 as [b p Hb|b p _ IH]; cbn [hex_params]; rewrite all_hex_app.
  - now rewrite all_hex_fmt_02x_negative.
  - rewrite IH. apply andb_false_r.
Qed.

Lemma length_hex_params (p : list Z) :
  Forall (fun b => 0 <= b) p ->
  (2 * List.length p <= String.length (hex_params p))%nat
  /\ (Exists (fun b => 255 < b) p ->
      (2 * List.length p < String.length (hex_params p))%nat).
Proof.
  induction 1 as [|b p Hb _ [IH1 IH2]]; cbn [hex_params List.length].
  - split; [cbn; lia|]. intros H; inversion H.
  - rewrite string_length_app.
    destruct (length_fmt_02x b Hb) as [H2 H3]. split; [lia|].
    intros Hex. inversion Hex as [? ? Hbig|? ? Hrest]; subst.
    + specialize (H3 Hbig). lia.
    + specialize (IH2 Hrest). lia.
Qed.

(** On hexadecimal text [unhexlify] succeeds exactly when the length is
    even, and then yields one byte per two digits. *)
Lemma unhexlify_pairs_all_hex (s : string) :
  all_hex s = true ->
  if Nat.even (String.length s)
  then exists bs, unhexlify_pairs s = Ok bs
                  /\ (2 * List.length bs = String.length s)%nat
  else unhexlify_pairs s = Raise BinasciiError.
Proof.
  induction s as [| c | a b s IH] using string_pair_ind; intros H.
  - exists []. split; reflexivity.
  - reflexivity.
  - cbn [all_hex] in H.
    destruct (hex_val a) as [h|] eqn:Ea; [|discriminate].
    destruct (hex_val b) as [l|] eqn:Eb; [|discriminate].
    specialize (IH H). cbn [String.length Nat.even unhexlify_pairs].
    rewrite Ea, Eb.
    destruct (Nat.even (String.length s)).
    + destruct IH as (bs & -> & Hlen). eexists. split; [reflexivity|].
      cbn [List.length]. lia.
    + now rewrite IH.
Qed.

Lemma unhexlify_pairs_raises (s : string) (e : exn) :
  unhexlify_pairs s = Raise e -> e = BinasciiError.
Proof.
  induction s as [| c | a b s IH] using string_pair_ind;
    cbn [unhexlify_pairs]; intros H.
  - discriminate.
  - now inversion H.
  - destruct (hex_val a), (hex_val b); try now inversion H.
    destruct (unhexlify_pairs s) as [bs|e'] eqn:E; [discriminate|].
    inversion H; subst. now apply IH.
Qed.

Lemma unhexlify_pairs_ok_all_hex (s : string) (bs : bytes) :
  unhexlify_pairs s = Ok bs -> all_hex s = true.
Proof.
  revert bs.
  induction s as [| c | a b s IH] using string_pair_ind;
    cbn [unhexlify_pairs all_hex]; intros bs H.
  - reflexivity.
  - discriminate.
  - destruct (hex_val a), (hex_val b); try discriminate.
    destruct (unhexlify_pairs s) as [bs'|e'] eqn:E; [|discriminate].
    now apply (IH bs').
Qed.

(** The text of a frame with arbitrary parameters: the head always decodes
    to [SYN | id | count]; what follows depends on the parameter text. *)
Lemma unhexlify_char_command_head (cmd_id : string) (c_hi c_lo : byte)
    (n : Z) (p : list Z) :
  unhexlify cmd_id = Ok [c_hi; c_lo] ->
  byte_range n ->
  unhexlify (char_command cmd_id n p)
  = match unhexlify_pairs (hex_params p ++ "0000") with
    | Ok body => Ok ([x16; c_hi; c_lo; byte_of_Z n] ++ body)
    | Raise e => Raise e
    end.
Proof.
  intros Hc Hn. unfold unhexlify in *.
  destruct (all_ascii cmd_id) eqn:Ea; [|discriminate].
  rewrite char_command_text, !all_ascii_app, Ea.
  rewrite all_ascii_fmt_02x, all_ascii_hex_params.
  simpl (all_ascii _). simpl (_ && _).
  rewrite (unhexlify_pairs_app [x16] "16" _ eq_refl).
  rewrite (unhexlify_pairs_app _ cmd_id _ Hc).
  rewrite (unhexlify_pairs_app _ _ _ (unhexlify_pairs_fmt_byte n Hn)).
  now destruct (unhexlify_pairs (hex_params p ++ "0000")).
Qed.

(** C10, as amended: [send_command] makes no range check of its own on
    the parameters, and ['%02x'] prints an element above 255 with more than
    two digits and a negative one with a minus sign.  A negative element
    makes [unhexlify] raise [binascii.Error], and so does an odd number of
    digits (as for the single parameter 256); in both cases nothing is
    written.  Only when all elements are non-negative and the digits come
    in an even number (as for the single parameter 4096) is a frame
    written: it then holds more bytes than [6 + len(var_bytes)] while its
    count byte is the declared count. *)
Theorem send_command_out_of_range (self : LandNSM10) (s : Serial)
    (cmd_id : string) (c_hi c_lo : byte) (p : list Z) (n_ret_bytes : Z) :
  ser self = Some s ->
  unhexlify cmd_id = Ok [c_hi; c_lo] ->
  (List.length p <= 255)%nat ->
  let n := Z.of_nat (List.length p) in
  (Exists (fun b => b < 0) p ->
   send_command cmd_id n p n_ret_bytes self = (Raise BinasciiError, self))
  /\ (Forall (fun b => 0 <= b) p ->
      Exists (fun b => 255 < b) p ->
      if Nat.even (String.length (hex_params p))
      then exists s' body,
             ser (snd (send_command cmd_id n p n_ret_bytes self)) = Some s'
             /\ written s'
                = written s
                  ++ [x16; c_hi; c_lo; byte_of_Z n] ++ body ++ [x00; x00]
             /\ Z_of_byte (byte_of_Z n) = n
             /\ (List.length p < List.length body)%nat
             /\ (log_ok self ->
                 fst (send_command cmd_id n p n_ret_bytes self)
                 = Ok (Some (firstn (Z.to_nat n_ret_bytes) (incoming s))))
      else send_command cmd_id n p n_ret_bytes self
           = (Raise BinasciiError, self)).
Proof.
  intros Hs Hc Hlen n.
  assert (byte_range n) as Hn by (unfold byte_range, n; lia).
  pose proof (unhexlify_char_command_head cmd_id c_hi c_lo n p Hc Hn) as Hu.
  split.
  - intros Hneg. apply send_command_unhexlify_raises. fold n. rewrite Hu.
    destruct (unhexlify_pairs (hex_params p ++ "0000")) as [body|e] eqn:E.
    + apply unhexlify_pairs_ok_all_hex in E.
      rewrite all_hex_app, (all_hex_hex_params_negative p Hneg) in E.
      discriminate.
    + now rewrite (unhexlify_pairs_raises _ _ E).
  - intros Hpos Hbig.
    pose proof (all_hex_hex_params_nonneg p Hpos) as Hhex.
    destruct (length_hex_params p Hpos) as [_ Hlong].
    specialize (Hlong Hbig).
    destruct (Nat.even (String.length (hex_params p))) eqn:Ev.
    + pose proof (unhexlify_pairs_all_hex _ Hhex) as Hb. rewrite Ev in Hb.
      destruct Hb as (body & Hb & Hl).
      rewrite (unhexlify_pairs_app _ _ "0000" Hb) in Hu.
      cbn [unhexlify_pairs hex_val] in Hu.
      change (unhexlify_pairs "0000") with (@Ok bytes [x00; x00]) in Hu.
      destruct (send_command_writes cmd_id p n_ret_bytes self s _ Hu Hs)
        as (s' & Hs' & Hw & Hok).
      exists s', body. split; [exact Hs'|]. split; [exact Hw|].
      split; [now apply Z_of_byte_of_Z|]. split; [lia|].
      intros Hl'. now destruct (Hok Hl').
    + apply send_command_unhexlify_raises. fold n. rewrite Hu.
      assert (all_hex (hex_params p ++ "0000") = true) as Hall
          by (rewrite all_hex_app, Hhex; reflexivity).
      pose proof (unhexlify_pairs_all_hex _ Hall) as Hb.
      rewrite string_length_app in Hb.
      change (String.length "0000") with 4%nat in Hb.
      rewrite Nat.even_add, Ev in Hb. cbn in Hb. now rewrite Hb.
Qed.

Lemma send_command_out_of_range_witness :
  send_command "0101" 1 [-1] 10 quiet_driver
  = (Raise BinasciiError, quiet_driver)
  /\ send_command "0101" 1 [256] 10 quiet_driver
     = (Raise BinasciiError, quiet_driver)
  /\ exists s' body,
       ser (snd (send_command "0101" 1 [4096] 10 quiet_driver)) = Some s'
       /\ written s' = [x16; x01; x01; x01] ++ body ++ [x00; x00]
       /\ (1 < List.length body)%nat.
Proof.
  split; [|split].
  - destruct (send_command_out_of_range quiet_driver quiet_port "0101"
                x01 x01 [-1] 10) as [H _];
      [reflexivity | reflexivity | simpl; lia |].
    apply H. constructor. lia.
  - destruct (send_command_out_of_range quiet_driver quiet_port "0101"
                x01 x01 [256] 10) as [_ H];
      [reflexivity | reflexivity | simpl; lia |].
    apply H; constructor; try lia. constructor.
  - destruct (send_command_out_of_range quiet_driver quiet_port "0101"
                x01 x01 [4096] 10) as [_ H];
      [reflexivity | reflexivity | simpl; lia |].
    destruct H as (s' & body & Hs & Hw & _ & Hl & _);
      [constructor; [lia | constructor] | constructor; lia |].
    exists s', body. repeat split; assumption.
Defined.

(** C10 as stated fails on its own example: with [axis = 256] the text of
    the frame has an odd number of digits, [unhexlify] raises
    [binascii.Error] and nothing is written. *)
Lemma send_command_out_of_range_counterexample :
  position_inquiry 256 quiet_driver = (Raise BinasciiError, quiet_driver)
  /\ send_command "0101" 1 [256] 10 quiet_driver
     = (Raise BinasciiError, quiet_driver)
  /\ ser quiet_driver = Some quiet_port
  /\ written quiet_port = [].
Proof.
  repeat split; vm_compute; reflexivity.
Qed.

(** ** End to end *)

(** The constructor establishes the invariant of the log, with or without
    a port, and always completes. *)
Lemma init_log_ok (v : Z) (sd log_opened : bool) (port : option Serial)
    (stdout : list log_msg) :
  fst (init v sd log_opened port stdout) = Ok tt
  /\ log_ok (snd (init v sd log_opened port stdout))
  /\ ser (snd (init v sd log_opened port stdout)) = port
  /\ connected (snd (init v sd log_opened port stdout))
     = match port with Some _ => true | None => false end.
Proof.
  unfold init, write_log, log_ok. run_monad.
  destruct port;
    destruct ((v =? 2) || (v =? 3)) eqn:E23;
    destruct ((v =? 1) || (v =? 3)) eqn:E13;
    destruct log_opened; cbn; rewrite ?E23, ?E13; cbn;
    repeat split; auto; discriminate.
Qed.

(** ** A complete transaction *)

(** On an open port, with a well-formed command id and parameters in
    range, [send_command] returns the bytes read and leaves the port with
    the frame appended and the bytes read removed. *)
Lemma send_command_run (cmd_id : string) (c_hi c_lo : byte) (p : list Z)
    (n_ret_bytes : Z) (self : LandNSM10) (s : Serial) :
  unhexlify cmd_id = Ok [c_hi; c_lo] ->
  Forall byte_range p ->
  (List.length p <= 255)%nat ->
  ser self = Some s ->
  log_ok self ->
  exists self',
    send_command cmd_id (Z.of_nat (List.length p)) p n_ret_bytes self
    = (Ok (Some (firstn (Z.to_nat n_ret_bytes) (incoming s))), self')
    /\ ser self'
       = Some (mkSerial
                 (written s
                  ++ [x16; c_hi; c_lo; byte_of_Z (Z.of_nat (List.length p))]
                  ++ map byte_of_Z p ++ [x00; x00])
                 (skipn (Z.to_nat n_ret_bytes) (incoming s)))
    /\ log_ok self'.
Proof.
  intros Hc Hp Hlen Hs Hl.
  assert (byte_range (Z.of_nat (List.length p))) as Hn
      by (unfold byte_range; lia).
  pose proof (unhexlify_char_command cmd_id c_hi c_lo _ p Hc Hn Hp) as Hu.
  destruct (send_command_writes cmd_id p n_ret_bytes self s _ Hu Hs)
    as (s' & Hs' & Hw & Hok).
  destruct (Hok Hl) as (Hr & Hi & Hl').
  destruct (send_command cmd_id (Z.of_nat (List.length p)) p n_ret_bytes self)
    as [r self'].
  cbn [fst snd] in *. subst r. exists self'.
  split; [reflexivity|]. split; [|exact Hl'].
  rewrite Hs'. destruct s' as [w i]. cbn [written incoming] in *.
  now subst w i.
Qed.

(** X1: the constructor never raises, whatever fails to open; [ser] is
    the port when one was opened and [connected] tells whether it was; the
    invariant of the log holds afterwards. *)
Theorem init_never_raises (v : Z) (sd log_opened : bool)
    (port : option Serial) (stdout : list log_msg) :
  let self := snd (init v sd log_opened port stdout) in
  fst (init v sd log_opened port stdout) = Ok tt
  /\ ser self = port
  /\ connected self = match port with Some _ => true | None => false end
  /\ verbose self = v
  /\ serial_debug self = sd
  /\ log_ok self.
Proof.
  unfold init, write_log, log_ok. run_monad.
  destruct port;
    destruct ((v =? 2) || (v =? 3)) eqn:E23;
    destruct ((v =? 1) || (v =? 3)) eqn:E13;
    destruct log_opened; cbn; rewrite ?E23, ?E13; cbn;
    repeat split; auto; discriminate.
Qed.

(** X2: when a log file is asked for (levels 2 and 3) and cannot be
    opened, the constructor goes on with file logging off: [logging] is
    false, there is no file, and the failure is reported on the console at
    level 3 only, before the message about the connection. *)
Theorem init_log_file_failure (v : Z) (sd : bool) (port : option Serial)
    (stdout : list log_msg) :
  v = 2 \/ v = 3 ->
  let self := snd (init v sd false port stdout) in
  let msg := match port with
             | Some _ => MsgConnected
             | None => MsgConnectionFailed
             end in
  fst (init v sd false port stdout) = Ok tt
  /\ logging self = false
  /\ log_file self = None
  /\ console self
     = stdout ++ (if v =? 3 then [MsgLogFileFailed; msg] else []).
Proof.
  intros [-> | ->]; destruct port; cbn; rewrite ?app_nil_r, <- ?app_assoc;
    repeat split; reflexivity.
Qed.

Lemma init_log_file_failure_witness :
  console (snd (init 3 false false None []))
  = [MsgLogFileFailed; MsgConnectionFailed].
Proof.
  destruct (init_log_file_failure 3 false None []) as (_ & _ & _ & H).
  - right; reflexivity.
  - exact H.
Defined.

(** X3: where a message goes is decided by [verbose] as the constructor
    documents it: 1 is the console, 2 the log file, 3 both, and any other
    level nothing.  The file is written only while [logging] is set, and
    the port and the flags are never touched. *)
Theorem write_log_levels (msg : log_msg) (self : LandNSM10) :
  log_ok self ->
  let self' := snd (write_log msg self) in
  fst (write_log msg self) = Ok tt
  /\ console self'
     = (if (verbose self =? 1) || (verbose self =? 3)
        then console self ++ [msg] else console self)
  /\ log_file self'
     = (if ((verbose self =? 2) || (verbose self =? 3)) && logging self
        then option_map (fun lines => lines ++ [msg]) (log_file self)
        else log_file self)
  /\ ser self' = ser self
  /\ verbose self' = verbose self
  /\ serial_debug self' = serial_debug self
  /\ logging self' = logging self
  /\ connected self' = connected self
  /\ (verbose self <> 1 -> verbose self <> 2 -> verbose self <> 3 ->
      write_log msg self = (Ok tt, self)).
Proof.
  unfold write_log, log_ok. run_monad. intros Hl.
  destruct (Z.eqb_spec (verbose self) 1) as [E1|E1];
    destruct (Z.eqb_spec (verbose self) 2) as [E2|E2];
    destruct (Z.eqb_spec (verbose self) 3) as [E3|E3];
    try lia;
    destruct (logging self) eqn:El; destruct (log_file self) eqn:Ef;
    cbn; rewrite ?El, ?Ef; cbn;
    try (exfalso; now apply Hl);
    repeat split; auto; try contradiction;
    intros; destruct self; reflexivity.
Qed.

Lemma write_log_levels_witness :
  write_log MsgConnected quiet_driver = (Ok tt, quiet_driver).
Proof.
  destruct (write_log_levels MsgConnected quiet_driver)
    as (_ & _ & _ & _ & _ & _ & _ & _ & H).
  - intros E; discriminate E.
  - apply H; cbn; lia.
Defined.

(** ** The other commands *)

(** X4: on an open port [axis_status] sends the frame
    [16 01 1e 01 axis 00 00], asks for 7 bytes and returns byte 4 of the
    reply as it is, a number in 0..255; a reply of 4 bytes or fewer has no
    byte 4 and the call raises [IndexError]. *)
Theorem axis_status_reply (axis : Z) (self : LandNSM10) (s : Serial) :
  ser self = Some s ->
  log_ok self ->
  byte_range axis ->
  let reply := firstn 7 (incoming s) in
  (exists s',
     ser (snd (axis_status axis self)) = Some s'
     /\ written s'
        = written s ++ [x16; x01; x1e; x01; byte_of_Z axis; x00; x00]
     /\ incoming s' = skipn 7 (incoming s))
  /\ ((List.length reply <= 4)%nat ->
      fst (axis_status axis self) = Raise IndexError)
  /\ (forall b, nth_error reply 4 = Some b ->
      fst (axis_status axis self) = Ok (Z_of_byte b)
      /\ byte_range (Z_of_byte b)).
Proof.
  intros Hs Hl Ha reply.
  assert (Forall byte_range [axis]) as Hp by now constructor.
  destruct (send_command_run "011e" x01 x1e [axis] 7 self s eq_refl Hp
              ltac:(cbn; lia) Hs Hl) as (self1 & Hrun & Hs1 & Hl1).
  change (Z.of_nat (List.length [axis])) with 1 in *.
  change (Z.to_nat 7) with 7%nat in *. fold reply in Hrun.
  unfold axis_status. cbv zeta. run_monad. rewrite Hrun.
  destruct (nth_error reply 4) as [b|] eqn:Eb.
  - destruct (write_log_ok (MsgStatus axis) self1 Hl1)
      as (self2 & Hw & Hs2 & _).
    rewrite Hw. cbn [fst snd]. split; [|split].
    + eexists. rewrite Hs2, Hs1. split; [reflexivity|]. split; reflexivity.
    + intros Hshort. apply nth_error_None in Hshort.
      rewrite Hshort in Eb. discriminate.
    + intros b' Hb'. injection Hb' as <-.
      split; [reflexivity | apply Z_of_byte_range].
  - cbn [fst snd]. split; [|split].
    + eexists. rewrite Hs1. split; [reflexivity|]. split; reflexivity.
    + reflexivity.
    + intros b' Hb'. discriminate.
Qed.

Lemma axis_status_reply_witness :
  fst (axis_status 3 (driver_with_reply [x00; x00; x00; x00; x02; x00; x00]))
  = Ok 2
  /\ fst (axis_status 3 (driver_with_reply [x00; x00; x00])) = Raise IndexError.
Proof.
  split.
  - destruct (axis_status_reply 3
                (driver_with_reply [x00; x00; x00; x00; x02; x00; x00])
                (mkSerial [] [x00; x00; x00; x00; x02; x00; x00]))
      as (_ & _ & H).
    + reflexivity.
    + intros E; discriminate E.
    + unfold byte_range; lia.
    + destruct (H x02 eq_refl) as [Hr _]. exact Hr.
  - destruct (axis_status_reply 3 (driver_with_reply [x00; x00; x00])
                (mkSerial [] [x00; x00; x00])) as (_ & H & _).
    + reflexivity.
    + intros E; discriminate E.
    + unfold byte_range; lia.
    + apply H. simpl; lia.
Defined.

(** X5: on an open port [axis_switch] sends [16 00 35 01 axis 00 00] to
    switch the axis on and [16 00 34 01 axis 00 00] to switch it off, and
    returns the first bytes of the reply, 5 at most, without looking at
    them. *)
Theorem axis_switch_frame (axis : Z) (switch_on : bool) (self : LandNSM10)
    (s : Serial) :
  ser self = Some s ->
  log_ok self ->
  byte_range axis ->
  fst (axis_switch axis switch_on self) = Ok (Some (firstn 5 (incoming s)))
  /\ exists s',
       ser (snd (axis_switch axis switch_on self)) = Some s'
       /\ written s'
          = written s
            ++ [x16; x00; if switch_on then x35 else x34; x01;
                byte_of_Z axis; x00; x00]
       /\ incoming s' = skipn 5 (incoming s).
Proof.
  intros Hs Hl Ha.
  assert (Forall byte_range [axis]) as Hp by now constructor.
  unfold axis_switch. cbv zeta. run_monad.
  destruct switch_on; cbn [negb].
  - destruct (send_command_run "0035" x00 x35 [axis] 5 self s eq_refl Hp
                ltac:(cbn; lia) Hs Hl) as (self1 & Hrun & Hs1 & Hl1).
    change (Z.of_nat (List.length [axis])) with 1 in *.
    rewrite Hrun.
    destruct (write_log_ok (MsgSwitch axis true) self1 Hl1)
      as (self2 & Hw & Hs2 & _).
    rewrite Hw. cbn [fst snd]. split; [reflexivity|].
    eexists. rewrite Hs2, Hs1. split; [reflexivity|]. split; reflexivity.
  - destruct (send_command_run "0034" x00 x34 [axis] 5 self s eq_refl Hp
                ltac:(cbn; lia) Hs Hl) as (self1 & Hrun & Hs1 & Hl1).
    change (Z.of_nat (List.length [axis])) with 1 in *.
    rewrite Hrun.
    destruct (write_log_ok (MsgSwitch axis false) self1 Hl1)
      as (self2 & Hw & Hs2 & _).
    rewrite Hw. cbn [fst snd]. split; [reflexivity|].
    eexists. rewrite Hs2, Hs1. split; [reflexivity|]. split; reflexivity.
Qed.

Lemma axis_switch_frame_witness :
  exists s',
    ser (snd (axis_switch 7 true quiet_driver)) = Some s'
    /\ written s' = [x16; x00; x35; x01; x07; x00; x00].
Proof.
  destruct (axis_switch_frame 7 true quiet_driver quiet_port)
    as (_ & s' & Hs & Hw & _).
  - reflexivity.
  - intros E; discriminate E.
  - unfold byte_range; lia.
  - exists s'. split; [exact Hs | exact Hw].
Defined.

(** X6: a device that puts the four integers [float_to_dec_bytes] makes
    of a single-precision value at offset 4 of its reply has
    [position_inquiry] return that value, whatever the first four bytes
    and the bytes after the eighth are. *)
Theorem position_inquiry_echo (v : spec_float) (axis : Z)
    (self : LandNSM10) (s : Serial) (dec : list Z) (head tail : bytes) :
  valid_binary prec32 emax32 v = true ->
  float_to_dec_bytes (single_to_double v) = Ok dec ->
  ser self = Some s ->
  log_ok self ->
  byte_range axis ->
  List.length head = 4%nat ->
  incoming s = head ++ map byte_of_Z dec ++ tail ->
  fst (position_inquiry axis self) = Ok (single_to_double v).
Proof.
  intros Hv Hd Hs Hl Ha Hh Hin.
  destruct (position_inquiry_run axis self s Hs Hl Ha) as [-> _].
  destruct (pack_unpack_single v Hv) as (b0 & b1 & b2 & b3 & Hp & Hu).
  rewrite (float_to_dec_bytes_packed _ _ _ _ _ Hp) in Hd.
  injection Hd as <-. rewrite Hin.
  destruct head as [|h0 [|h1 [|h2 [|h3 [|h4 head]]]]]; try discriminate.
  unfold slice. cbn [app map firstn skipn Nat.sub].
  now rewrite !byte_of_Z_of_byte.
Qed.

Lemma position_inquiry_echo_witness :
  fst (position_inquiry 15
         (driver_with_reply
            [x16; x01; x01; x04; x00; x00; xc8; xc2; x00; x00]))
  = Ok f_m100.
Proof.
  apply (position_inquiry_echo single_m100 15 _
           (mkSerial [] [x16; x01; x01; x04; x00; x00; xc8; xc2; x00; x00])
           [0; 0; 200; 194] [x16; x01; x01; x04] [x00; x00]).
  - reflexivity.
  - vm_compute; reflexivity.
  - reflexivity.
  - intros E; discriminate E.
  - unfold byte_range; lia.
  - reflexivity.
  - reflexivity.
Defined.

(** ** Without a port *)

(** X7: on a driver that has no port, each of the four commands given an
    axis in 0..255 raises [AttributeError] at the write, and the driver
    still has no port afterwards; [approach_position] does so for every
    position that can be packed. *)
Theorem commands_without_port (axis : Z) (self : LandNSM10) :
  ser self = None ->
  log_ok self ->
  byte_range axis ->
  (fst (position_inquiry axis self) = Raise AttributeError
   /\ ser (snd (position_inquiry axis self)) = None)
  /\ (fst (axis_status axis self) = Raise AttributeError
      /\ ser (snd (axis_status axis self)) = None)
  /\ (forall switch_on,
        fst (axis_switch axis switch_on self) = Raise AttributeError
        /\ ser (snd (axis_switch axis switch_on self)) = None)
  /\ (forall (position : pyfloat) absolute slow (reverse : bool) dec,
        float_to_dec_bytes (if reverse then SFopp position else position)
        = Ok dec ->
        fst (approach_position axis position absolute slow reverse self)
        = Raise AttributeError
        /\ ser (snd (approach_position axis position absolute slow reverse
                       self)) = None).
Proof.
  intros Hs Hl Ha.
  assert (Forall byte_range [axis]) as Hp by now constructor.
  assert (forall cmd_id c_hi c_lo n_ret self0,
             unhexlify cmd_id = Ok [c_hi; c_lo] -> ser self0 = None ->
             send_command cmd_id 1 [axis] n_ret self0
             = (Raise AttributeError, self0)) as Hsend.
  { intros cmd_id c_hi c_lo n_ret self0 Hc Hs0.
    apply (send_command_no_port cmd_id [axis] n_ret self0 _
             (unhexlify_char_command cmd_id c_hi c_lo 1 [axis] Hc
                ltac:(unfold byte_range; lia) Hp) Hs0). }
  split; [|split; [|split]].
  - unfold position_inquiry. cbv zeta. run_monad.
    destruct (write_log_ok (MsgQueryPosition axis) self Hl)
      as (self1 & Hw & Hs1 & _).
    rewrite Hw, (Hsend "0101" x01 x01 10 self1 eq_refl)
      by (now rewrite Hs1).
    cbn. split; [reflexivity | now rewrite Hs1].
  - unfold axis_status. cbv zeta. run_monad.
    rewrite (Hsend "011e" x01 x1e 7 self eq_refl Hs).
    cbn. split; [reflexivity | exact Hs].
  - intros switch_on. unfold axis_switch. cbv zeta. run_monad.
    destruct switch_on; cbn [negb].
    + rewrite (Hsend "0035" x00 x35 5 self eq_refl Hs).
      cbn. split; [reflexivity | exact Hs].
    + rewrite (Hsend "0034" x00 x34 5 self eq_refl Hs).
      cbn. split; [reflexivity | exact Hs].
  - assert (forall position absolute slow dec,
               float_to_dec_bytes position = Ok dec ->
               fst (approach_position axis position absolute slow false self)
               = Raise AttributeError
               /\ ser (snd (approach_position axis position absolute slow
                              false self)) = None) as Hfwd;
      [|intros position absolute slow reverse dec Hd; destruct reverse;
        [rewrite approach_reverse_is_opp|]; now apply (Hfwd _ _ _ dec)].
    intros position absolute slow dec Hd.
    destruct (float_to_dec_bytes_shape _ _ Hd) as (Hlen & Hr & _).
    destruct (approach_cmd_id_text absolute slow) as (cmd_id & Hc & Hu).
    unfold approach_position. cbv zeta. run_monad. rewrite Hd, Hc.
    destruct (write_log_ok (MsgApproach axis absolute slow position) self Hl)
      as (self1 & Hw & Hs1 & _).
    rewrite Hw.
    assert (5 = Z.of_nat (List.length ([axis] ++ dec))) as E5
        by (cbn [app List.length]; rewrite Hlen; reflexivity).
    assert (Forall byte_range ([axis] ++ dec)) as Hp5 by now constructor.
    pose proof (unhexlify_char_command cmd_id _ _
                  (Z.of_nat (List.length ([axis] ++ dec))) _ Hu
                  ltac:(rewrite <- E5; unfold byte_range; lia) Hp5) as Hf.
    pose proof (send_command_no_port cmd_id ([axis] ++ dec) 5 self1 _ Hf)
      as Hn.
    rewrite <- E5 in Hn. rewrite Hn by (now rewrite Hs1).
    cbn. split; [reflexivity | now rewrite Hs1].
Qed.

Lemma commands_without_port_witness :
  fst (axis_status 3 (snd (init 0 false false None [])))
  = Raise AttributeError.
Proof.
  destruct (commands_without_port 3 (snd (init 0 false false None [])))
    as (_ & (H & _) & _).
  - reflexivity.
  - intros E; discriminate E.
  - unfold byte_range; lia.
  - exact H.
Defined.

(** ** Replies *)

(** X8: a successful [send_command] returns exactly the requested number
    of bytes when the port has that many, and all the port has otherwise;
    the bytes it did not take stay in the port for the next read: nothing
    is discarded. *)
Theorem send_command_reply_length (cmd_id : string) (c_hi c_lo : byte)
    (p : list Z) (n_ret_bytes : Z) (self : LandNSM10) (s : Serial) :
  unhexlify cmd_id = Ok [c_hi; c_lo] ->
  Forall byte_range p ->
  (List.length p <= 255)%nat ->
  ser self = Some s ->
  log_ok self ->
  exists ans s',
    fst (send_command cmd_id (Z.of_nat (List.length p)) p n_ret_bytes self)
    = Ok (Some ans)
    /\ ser (snd (send_command cmd_id (Z.of_nat (List.length p)) p
                   n_ret_bytes self)) = Some s'
    /\ List.length ans
       = Nat.min (Z.to_nat n_ret_bytes) (List.length (incoming s))
    /\ incoming s = ans ++ incoming s'.
Proof.
  intros Hc Hp Hlen Hs Hl.
  destruct (send_command_run cmd_id c_hi c_lo p n_ret_bytes self s
              Hc Hp Hlen Hs Hl) as (self' & -> & Hs' & _).
  cbn [fst snd]. do 2 eexists. split; [reflexivity|].
  split; [exact Hs'|]. cbn [incoming].
  split; [apply length_firstn | symmetry; apply firstn_skipn].
Qed.

Lemma send_command_reply_length_witness :
  fst (send_command "0101" 1 [15] 2
         (driver_with_reply [x0a; x0b; x0c]))
  = Ok (Some [x0a; x0b]).
Proof.
  destruct (send_command_reply_length "0101" x01 x01 [15] 2
              (driver_with_reply [x0a; x0b; x0c])
              (mkSerial [] [x0a; x0b; x0c]))
    as (ans & s' & Hr & _ & Hn & Happ).
  - reflexivity.
  - repeat constructor; unfold byte_range; lia.
  - simpl; lia.
  - reflexivity.
  - intros E; discriminate E.
  - cbn in Hn, Happ.
    destruct ans as [|a [|b [|c ans]]]; try discriminate Hn.
    injection Happ as <- <- _. exact Hr.
Defined.

(** ** Frames and transactions *)

Lemma map_byte_of_Z_inj (p p' : list Z) :
  Forall byte_range p -> Forall byte_range p' ->
  map byte_of_Z p = map byte_of_Z p' -> p = p'.
Proof.
  intros Hp. revert p'.
  induction Hp as [|b p Hb _ IH]; intros p' Hp' H;
    destruct Hp' as [|b' p' Hb' Hp']; try discriminate; [reflexivity|].
  cbn [map] in H. injection H as Hh Ht.
  apply (f_equal Z_of_byte) in Hh.
  rewrite !Z_of_byte_of_Z in Hh by assumption.
  subst b'. f_equal. now apply IH.
Qed.

(** X9: the frame determines the command.  Two well-formed calls whose
    frames are the same bytes have the same two command id bytes and the
    same parameter list. *)
Theorem frame_determines_command (cmd_id cmd_id' : string)
    (a b a' b' : byte) (p p' : list Z) :
  unhexlify cmd_id = Ok [a; b] ->
  unhexlify cmd_id' = Ok [a'; b'] ->
  Forall byte_range p -> Forall byte_range p' ->
  (List.length p <= 255)%nat -> (List.length p' <= 255)%nat ->
  unhexlify (char_command cmd_id (Z.of_nat (List.length p)) p)
  = unhexlify (char_command cmd_id' (Z.of_nat (List.length p')) p') ->
  a = a' /\ b = b' /\ p = p'.
Proof.
  intros Hc Hc' Hp Hp' Hl Hl' H.
  assert (byte_range (Z.of_nat (List.length p))) as Hn
      by (unfold byte_range; lia).
  assert (byte_range (Z.of_nat (List.length p'))) as Hn'
      by (unfold byte_range; lia).
  rewrite (unhexlify_char_command cmd_id a b _ p Hc Hn Hp) in H.
  rewrite (unhexlify_char_command cmd_id' a' b' _ p' Hc' Hn' Hp') in H.
  cbn [app] in H. injection H as Ha Hb _ Ht.
  apply app_inv_tail in Ht.
  repeat split; try assumption. now apply map_byte_of_Z_inj.
Qed.

Lemma frame_determines_command_witness :
  x01 = x01 /\ x1e = x1e /\ [3] = [3].
Proof.
  apply (frame_determines_command "011e" "011E" x01 x1e x01 x1e [3] [3]);
    try reflexivity; try (repeat constructor; unfold byte_range; lia);
    simpl; lia.
Defined.

(** X10: the logging settings never change what goes over the wire.  Two
    drivers that hold the same port, whatever their [verbose] and
    [serial_debug], get the same result from the same [send_command] call
    and leave the port in the same state. *)
Theorem send_command_ignores_logging (cmd_id : string) (n_bytes : Z)
    (var_bytes : list Z) (n_ret_bytes : Z) (self1 self2 : LandNSM10) :
  log_ok self1 -> log_ok self2 ->
  ser self1 = ser self2 ->
  fst (send_command cmd_id n_bytes var_bytes n_ret_bytes self1)
  = fst (send_command cmd_id n_bytes var_bytes n_ret_bytes self2)
  /\ ser (snd (send_command cmd_id n_bytes var_bytes n_ret_bytes self1))
     = ser (snd (send_command cmd_id n_bytes var_bytes n_ret_bytes self2)).
Proof.
  intros Hl1 Hl2 Hs.
  destruct (Z.eq_dec n_bytes (Z.of_nat (List.length var_bytes))) as [->|Hne].
  - destruct (unhexlify (char_command cmd_id
                (Z.of_nat (List.length var_bytes)) var_bytes)) as [frame|e]
      eqn:Eu.
    + destruct (ser self1) as [s|] eqn:Es1.
      * symmetry in Hs.
        destruct (send_command_writes cmd_id var_bytes n_ret_bytes self1 s
                    frame Eu Es1) as (s1 & Hs1 & Hw1 & Hok1).
        destruct (send_command_writes cmd_id var_bytes n_ret_bytes self2 s
                    frame Eu Hs) as (s2 & Hs2 & Hw2 & Hok2).
        destruct (Hok1 Hl1) as (Hr1 & Hi1 & _).
        destruct (Hok2 Hl2) as (Hr2 & Hi2 & _).
        rewrite Hr1, Hr2, Hs1, Hs2. split; [reflexivity|].
        destruct s1, s2; cbn in *. congruence.
      * symmetry in Hs.
        rewrite (send_command_no_port _ _ _ self1 _ Eu Es1).
        rewrite (send_command_no_port _ _ _ self2 _ Eu Hs).
        cbn. split; congruence.
    + rewrite !(send_command_unhexlify_raises _ _ _ _ _ Eu).
      cbn. split; [reflexivity | exact Hs].
  - destruct (send_command_mismatch cmd_id n_bytes var_bytes n_ret_bytes
                self1 Hne) as (Hp1 & _ & Hr1).
    destruct (send_command_mismatch cmd_id n_bytes var_bytes n_ret_bytes
                self2 Hne) as (Hp2 & _ & Hr2).
    rewrite Hp1, Hp2, (Hr1 Hl1), (Hr2 Hl2). split; [reflexivity | exact Hs].
Qed.

Lemma send_command_ignores_logging_witness :
  fst (send_command "0101" 1 [15] 10 quiet_driver)
  = fst (send_command "0101" 1 [15] 10
           (mkLandNSM10 3 true (Some []) true (Some quiet_port) true [])).
Proof.
  destruct (send_command_ignores_logging "0101" 1 [15] 10 quiet_driver
              (mkLandNSM10 3 true (Some []) true (Some quiet_port) true []))
    as [H _].
  - intros E; discriminate E.
  - intros _ E; discriminate E.
  - reflexivity.
  - exact H.
Defined.

(** X11: transactions compose on the byte stream.  Two successful calls
    in a row leave the two frames one after the other in what was sent,
    and the second call reads on from the byte where the first stopped:
    the driver never empties the input in between. *)
Theorem send_command_twice (cmd1 cmd2 : string) (a1 b1 a2 b2 : byte)
    (p1 p2 : list Z) (n1 n2 : Z) (self : LandNSM10) (s : Serial) :
  unhexlify cmd1 = Ok [a1; b1] ->
  unhexlify cmd2 = Ok [a2; b2] ->
  Forall byte_range p1 -> Forall byte_range p2 ->
  (List.length p1 <= 255)%nat -> (List.length p2 <= 255)%nat ->
  ser self = Some s ->
  log_ok self ->
  exists self'',
    (r1 <- send_command cmd1 (Z.of_nat (List.length p1)) p1 n1 ;;
     r2 <- send_command cmd2 (Z.of_nat (List.length p2)) p2 n2 ;;
     ret (r1, r2)) self
    = (Ok (Some (firstn (Z.to_nat n1) (incoming s)),
           Some (firstn (Z.to_nat n2) (skipn (Z.to_nat n1) (incoming s)))),
       self'')
    /\ ser self''
       = Some (mkSerial
                 (written s
                  ++ ([x16; a1; b1; byte_of_Z (Z.of_nat (List.length p1))]
                      ++ map byte_of_Z p1 ++ [x00; x00])
                  ++ ([x16; a2; b2; byte_of_Z (Z.of_nat (List.length p2))]
                      ++ map byte_of_Z p2 ++ [x00; x00]))
                 (skipn (Z.to_nat n2) (skipn (Z.to_nat n1) (incoming s)))).
Proof.
  intros Hc1 Hc2 Hp1 Hp2 Hl1 Hl2 Hs Hl.
  destruct (send_command_run cmd1 a1 b1 p1 n1 self s Hc1 Hp1 Hl1 Hs Hl)
    as (self1 & Hr1 & Hs1 & Hlog1).
  destruct (send_command_run cmd2 a2 b2 p2 n2 self1 _ Hc2 Hp2 Hl2 Hs1 Hlog1)
    as (self2 & Hr2 & Hs2 & _).
  exists self2. run_monad. rewrite Hr1, Hr2. split; [reflexivity|].
  rewrite Hs2. cbn [written incoming]. now rewrite <- app_assoc.
Qed.

Lemma send_command_twice_witness :
  exists self'',
    (r1 <- send_command "0035" 1 [7] 2 ;;
     r2 <- send_command "0101" 1 [7] 2 ;;
     ret (r1, r2)) (driver_with_reply [x0a; x0b; x0c])
    = (Ok (Some [x0a; x0b], Some [x0c]), self'').
Proof.
  destruct (send_command_twice "0035" "0101" x00 x35 x01 x01 [7] [7] 2 2
              (driver_with_reply [x0a; x0b; x0c])
              (mkSerial [] [x0a; x0b; x0c])) as (self'' & H & _);
    try reflexivity;
    try (repeat constructor; unfold byte_range; lia);
    try (simpl; lia).
  - intros E; discriminate E.
  - exists self''. exact H.
Defined.

(** ** More on floats *)







(** X13: called with a float, [float_to_dec_bytes] fails on finite
    non-zero floats only, and then with [OverflowError]: a zero, an
    infinity or a NaN is always packed.  An int argument is treated
    separately. *)
Theorem float_to_dec_bytes_error (x : pyfloat) (e : exn) :
  float_to_dec_bytes x = Raise e ->
  e = OverflowError /\ exists s m ex, x = S754_finite s m ex.
Proof.
  intros H.
  destruct (struct_pack_be_f_cases x) as [[C E]|[_ E]].
  - unfold float_to_dec_bytes in H. rewrite E in H. injection H as <-.
    split; [reflexivity|].
    destruct x as [s|s| |s m ex]; try discriminate C. now exists s, m, ex.
  - unfold be32 in E. rewrite (float_to_dec_bytes_packed _ _ _ _ _ E) in H.
    discriminate.
Qed.

Lemma float_to_dec_bytes_error_witness :
  OverflowError = OverflowError
  /\ exists s m ex, f_2p128 = S754_finite s m ex.
Proof.
  apply (float_to_dec_bytes_error f_2p128 OverflowError).
  vm_compute; reflexivity.
Defined.

(** ** Outcomes of [approach_position] and the debug trace *)

(** X14: on an open port, for an axis in 0..255 and a position that is a
    float, [approach_position] has two outcomes only.  Either the position
    cannot be packed and the call raises [OverflowError] before anything
    is logged or sent, or one frame of exactly 11 bytes is sent and the
    first bytes of the reply, 5 at most, are returned as they are.  An
    int position is treated separately. *)
Theorem approach_position_outcome (axis : Z) (position : pyfloat)
    (absolute slow reverse : bool) (self : LandNSM10) (s : Serial) :
  ser self = Some s ->
  log_ok self ->
  byte_range axis ->
  approach_position axis position absolute slow reverse self
  = (Raise OverflowError, self)
  \/ exists s' frame,
       fst (approach_position axis position absolute slow reverse self)
       = Ok (Some (firstn 5 (incoming s)))
       /\ ser (snd (approach_position axis position absolute slow reverse
                      self)) = Some s'
       /\ written s' = written s ++ frame
       /\ List.length frame = 11%nat.
Proof.
  intros Hs Hl Ha.
  assert (forall x : pyfloat,
             approach_position axis x absolute slow false self
             = (Raise OverflowError, self)
             \/ exists s' frame,
                  fst (approach_position axis x absolute slow false self)
                  = Ok (Some (firstn 5 (incoming s)))
                  /\ ser (snd (approach_position axis x absolute slow false
                                 self)) = Some s'
                  /\ written s' = written s ++ frame
                  /\ List.length frame = 11%nat) as Hfwd.
  { intros x. destruct (float_to_dec_bytes x) as [dec|e] eqn:Ed.
    - right.
      destruct (approach_position_forward axis x absolute slow self s dec
                  Hs Hl Ha Ed) as (s' & Hs' & Hw & Hr).
      destruct (float_to_dec_bytes_shape _ _ Ed) as (Hlen & _).
      exists s'. eexists. repeat split; [exact Hr | exact Hs' | exact Hw |].
      cbn [List.length app]. rewrite length_app, length_map, Hlen.
      reflexivity.
    - left.
      destruct (struct_pack_be_f_cases x) as [[_ E]|[_ E]].
      + unfold approach_position, float_to_dec_bytes. cbv zeta. run_monad.
        now rewrite E.
      + unfold be32 in E.
        rewrite (float_to_dec_bytes_packed _ _ _ _ _ E) in Ed. discriminate. }
  destruct reverse.
  - rewrite approach_reverse_is_opp. apply Hfwd.
  - apply Hfwd.
Qed.

Lemma approach_position_outcome_witness :
  approach_position 15 f_2p128 true true false quiet_driver
  = (Raise OverflowError, quiet_driver)
  \/ exists s' frame,
       fst (approach_position 15 f_2p128 true true false quiet_driver)
       = Ok (Some (firstn 5 (incoming quiet_port)))
       /\ ser (snd (approach_position 15 f_2p128 true true false
                      quiet_driver)) = Some s'
       /\ written s' = written quiet_port ++ frame
       /\ List.length frame = 11%nat.
Proof.
  apply (approach_position_outcome 15 f_2p128 true true false quiet_driver
           quiet_port).
  - reflexivity.
  - intros E; discriminate E.
  - unfold byte_range; lia.
Defined.



(** ** Positions given as integers *)

Lemma float_to_dec_bytes_number_packed (v : number) (b0 b1 b2 b3 : byte) :
  struct_pack_be_f_number v = Ok [b0; b1; b2; b3] ->
  float_to_dec_bytes_number v
  = Ok [Z_of_byte b3; Z_of_byte b2; Z_of_byte b1; Z_of_byte b0].
Proof.
  intros H. unfold float_to_dec_bytes_number. rewrite H.
  cbn [hexlify]. unfold str_from, str_slice, str_to.
  cbn [String.length substring Nat.sub].
  now rewrite !int16_hex_pair.
Qed.

(** On a float the two embeddings of [float_to_dec_bytes] and of
    [approach_position] are the same function. *)
Lemma float_to_dec_bytes_number_float (x : pyfloat) :
  float_to_dec_bytes_number (PyFloat x) = float_to_dec_bytes x.
Proof. reflexivity. Qed.

Lemma approach_position_number_float (axis : Z) (x : pyfloat)
    (absolute slow reverse : bool) :
  approach_position_number axis (PyFloat x) absolute slow reverse
  = approach_position axis x absolute slow reverse.
Proof. destruct reverse; reflexivity. Qed.

(** Either the number is packed like the float it converts to, or the call
    fails, with [struct.error] on an int and [OverflowError] on a float. *)
Lemma float_to_dec_bytes_number_cases (v : number) :
  (exists dec,
     float_to_dec_bytes_number v = Ok dec
     /\ float_to_dec_bytes (float_of_number v) = Ok dec)
  \/ float_to_dec_bytes_number v
     = Raise match v with
             | PyInt _ => StructError
             | PyFloat _ => OverflowError
             end.
Proof.
  destruct v as [n|x].
  - unfold float_to_dec_bytes_number, struct_pack_be_f_number, int_to_double.
    cbn [float_of_number]. cbv zeta.
    set (x := binary_normalize prec64 emax64 n 0 false).
    destruct (is_infinity x); [right; reflexivity|].
    destruct (struct_pack_be_f_cases x) as [[_ E]|[_ E]].
    + right. now rewrite E.
    + left. pose proof E as E'. unfold be32 in E'.
      exists [Z_of_byte (byte_of_Z (bits_of_single (double_to_single x)
                                    mod 256));
              Z_of_byte (byte_of_Z ((bits_of_single (double_to_single x)
                                     / 2 ^ 8) mod 256));
              Z_of_byte (byte_of_Z ((bits_of_single (double_to_single x)
                                     / 2 ^ 16) mod 256));
              Z_of_byte (byte_of_Z (bits_of_single (double_to_single x)
                                    / 2 ^ 24))].
      split; [|exact (float_to_dec_bytes_packed _ _ _ _ _ E')].
      rewrite E. unfold be32. cbn [hexlify].
      unfold str_from, str_slice, str_to.
      cbn [String.length substring Nat.sub].
      now rewrite !int16_hex_pair.
  - cbn [float_of_number]. rewrite float_to_dec_bytes_number_float.
    destruct (float_to_dec_bytes x) as [dec|e] eqn:Ed.
    + left. now exists dec.
    + right. f_equal.
      destruct (struct_pack_be_f_cases x) as [[_ E]|[_ E]].
      * unfold float_to_dec_bytes in Ed. rewrite E in Ed. now injection Ed.
      * unfold be32 in E.
        rewrite (float_to_dec_bytes_packed _ _ _ _ _ E) in Ed. discriminate.
Qed.

(** Once the position is packed, the call goes on as it does on the
    float the position converts to. *)
Lemma approach_position_number_packed (axis : Z) (position : number)
    (absolute slow : bool) (dec : list Z) :
  float_to_dec_bytes_number position = Ok dec ->
  float_to_dec_bytes (float_of_number position) = Ok dec ->
  approach_position_number axis position absolute slow false
  = approach_position axis (float_of_number position) absolute slow false.
Proof.
  intros H1 H2. unfold approach_position_number, approach_position.
  cbv zeta. cbv iota. now rewrite H1, H2.
Qed.

Lemma approach_position_number_reverse (axis : Z) (position : number)
    (absolute slow : bool) :
  approach_position_number axis position absolute slow true
  = approach_position_number axis (neg_number position) absolute slow false.
Proof. reflexivity. Qed.

(** Rounding to binary64 a mantissa of fewer than 53 bits pads it. *)
Lemma binary_round64_pads (s : bool) (m : positive) (e : Z) :
  Zpos (digits2_pos m) < 53 ->
  -1074 <= Zpos (digits2_pos m) + e - 53 <= 971 ->
  exists k : positive,
    Zpos k = 53 - Zpos (digits2_pos m)
    /\ binary_round prec64 emax64 s m e
       = S754_finite s (Pos.iter xO m k) (e - Zpos k).
Proof.
  intros Hd He. unfold binary_round.
  assert (fexp prec64 emax64 (Zpos (digits2_pos m) + e)
          = Zpos (digits2_pos m) + e - 53) as Hf
      by (unfold fexp, emin, prec64, emax64; lia).
  rewrite Hf. unfold shl_align.
  destruct (Zpos (digits2_pos m) + e - 53 - e) as [|k|k] eqn:Ek; try lia.
  exists k. split; [lia|].
  replace (Zpos (digits2_pos m) + e - 53) with (e - Zpos k) by lia.
  apply binary_round_aux_canonical.
  - rewrite digits2_pos_shift, Pos2Z.inj_add.
    unfold fexp, emin, prec64, emax64. lia.
  - unfold prec64, emax64. lia.
Qed.

Lemma small_mantissa_is_single (s : bool) (m : positive) :
  Zpos m < 2 ^ 24 ->
  exists v,
    valid_binary prec32 emax32 v = true
    /\ is_infinity (single_to_double v) = false
    /\ binary_round prec64 emax64 s m 0 = single_to_double v.
Proof.
  intros Hm.
  pose proof (digits2_pos_bounds m) as [Hlo Hhi].
  pose proof (Pos2Z.is_pos (digits2_pos m)) as Hpos.
  assert (Zpos (digits2_pos m) <= 24) as Hd.
  { destruct (Z.le_gt_cases (Zpos (digits2_pos m)) 24) as [H|H]; [exact H|].
    assert (2 ^ 24 <= 2 ^ (Zpos (digits2_pos m) - 1))
      by (apply Z.pow_le_mono_r; lia).
    lia. }
  destruct (binary_round64_pads s m 0) as (k & Hk & Hround); try lia.
  destruct (24 - Zpos (digits2_pos m)) as [|j|j] eqn:Ej; try lia.
  - assert (bounded prec32 emax32 m 0 = true) as Hb.
    { unfold bounded, canonical_mantissa. apply andb_true_iff.
      split; [apply Z.eqb_eq | apply Z.leb_le];
        unfold fexp, emin, prec32, emax32; lia. }
    exists (S754_finite s m 0). split; [exact Hb|].
    destruct (single_to_double_finite s m 0 Hb) as (k' & Hk' & ->).
    split; [reflexivity|]. rewrite Hround. now replace k' with k by lia.
  - assert (bounded prec32 emax32 (Pos.iter xO m j) (- Zpos j) = true) as Hb.
    { unfold bounded, canonical_mantissa. rewrite digits2_pos_shift.
      rewrite Pos2Z.inj_add. apply andb_true_iff.
      split; [apply Z.eqb_eq | apply Z.leb_le];
        unfold fexp, emin, prec32, emax32; lia. }
    exists (S754_finite s (Pos.iter xO m j) (- Zpos j)). split; [exact Hb|].
    destruct (single_to_double_finite s _ _ Hb) as (k' & Hk' & ->).
    rewrite digits2_pos_shift, Pos2Z.inj_add in Hk'.
    split; [reflexivity|]. rewrite Hround.
    replace k with (k' + j)%positive by lia.
    rewrite Pos.iter_add. f_equal. lia.
Qed.

(** An int below [2 ** 24] in magnitude converts to a float that single
    precision holds exactly. *)
Lemma small_int_is_single (n : Z) :
  Z.abs n < 2 ^ 24 ->
  exists v,
    valid_binary prec32 emax32 v = true
    /\ is_infinity (single_to_double v) = false
    /\ binary_normalize prec64 emax64 n 0 false = single_to_double v.
Proof.
  intros Hn. destruct n as [|m|m]; cbn [binary_normalize].
  - exists (S754_zero false). repeat split.
  - apply small_mantissa_is_single. lia.
  - apply small_mantissa_is_single. lia.
Qed.

(** X16: called with an int, [float_to_dec_bytes] can fail with
    [struct.error] only, and only for an int of magnitude [2 ** 24] or
    more.  A smaller int is converted like [float(n)]: the result is four
    integers that are bytes, and decoding them gives [float(n)] back. *)
Theorem float_to_dec_bytes_int (n : Z) :
  (forall e,
     float_to_dec_bytes_number (PyInt n) = Raise e ->
     e = StructError /\ 2 ^ 24 <= Z.abs n)
  /\ (Z.abs n < 2 ^ 24 ->
      exists b0 b1 b2 b3 : byte,
        int_to_double n = Ok (float_of_number (PyInt n))
        /\ float_to_dec_bytes_number (PyInt n)
           = Ok [Z_of_byte b0; Z_of_byte b1; Z_of_byte b2; Z_of_byte b3]
        /\ struct_unpack_f [b0; b1; b2; b3]
           = Ok (float_of_number (PyInt n))).
Proof.
  assert (Z.abs n < 2 ^ 24 ->
          exists b0 b1 b2 b3 : byte,
            int_to_double n = Ok (float_of_number (PyInt n))
            /\ float_to_dec_bytes_number (PyInt n)
               = Ok [Z_of_byte b0; Z_of_byte b1; Z_of_byte b2; Z_of_byte b3]
            /\ struct_unpack_f [b0; b1; b2; b3]
               = Ok (float_of_number (PyInt n))) as Hsmall.
  { intros Hn. destruct (small_int_is_single n Hn) as (v & Hv & Hi & Hx).
    destruct (pack_unpack_single v Hv) as (c0 & c1 & c2 & c3 & Hp & Hu).
    exists c3, c2, c1, c0. cbn [float_of_number]. rewrite Hx.
    assert (int_to_double n = Ok (single_to_double v)) as Hconv
        by (unfold int_to_double; cbv zeta; now rewrite Hx, Hi).
    split; [exact Hconv|]. split; [|exact Hu].
    apply float_to_dec_bytes_number_packed.
    unfold struct_pack_be_f_number. now rewrite Hconv, Hp. }
  split; [|exact Hsmall].
  intros e He. split.
  - destruct (float_to_dec_bytes_number_cases (PyInt n)) as [(dec & E & _)|E];
      rewrite E in He; [discriminate | now injection He].
  - destruct (Z.le_gt_cases (2 ^ 24) (Z.abs n)) as [H|H]; [exact H|].
    destruct (Hsmall ltac:(lia)) as (b0 & b1 & b2 & b3 & _ & E & _).
    rewrite E in He. discriminate.
Qed.

Lemma float_to_dec_bytes_int_witness :
  exists b0 b1 b2 b3 : byte,
    float_to_dec_bytes_number (PyInt (-100))
    = Ok [Z_of_byte b0; Z_of_byte b1; Z_of_byte b2; Z_of_byte b3]
    /\ struct_unpack_f [b0; b1; b2; b3] = Ok f_m100.
Proof.
  destruct (float_to_dec_bytes_int (-100)) as [_ H].
  destruct H as (b0 & b1 & b2 & b3 & _ & Hd & Hu).
  - vm_compute. reflexivity.
  - exists b0, b1, b2, b3. split; [exact Hd | exact Hu].
Defined.

(** X17: on an open port and with an axis in 0..255, [approach_position]
    called with an int or a float position has these outcomes only.  The
    position cannot be packed, and the call raises before anything is
    logged or sent, [struct.error] for an int and [OverflowError] for a
    float; or one frame of exactly 11 bytes is sent and the first bytes of
    the reply, 5 at most, are returned as they are. *)
Theorem approach_position_number_outcome (axis : Z) (position : number)
    (absolute slow reverse : bool) (self : LandNSM10) (s : Serial) :
  ser self = Some s ->
  log_ok self ->
  byte_range axis ->
  approach_position_number axis position absolute slow reverse self
  = (Raise match position with
           | PyInt _ => StructError
           | PyFloat _ => OverflowError
           end, self)
  \/ exists s' frame,
       fst (approach_position_number axis position absolute slow reverse
              self) = Ok (Some (firstn 5 (incoming s)))
       /\ ser (snd (approach_position_number axis position absolute slow
                      reverse self)) = Some s'
       /\ written s' = written s ++ frame
       /\ List.length frame = 11%nat.
Proof.
  intros Hs Hl Ha.
  assert (forall p : number,
             approach_position_number axis p absolute slow false self
             = (Raise match p with
                      | PyInt _ => StructError
                      | PyFloat _ => OverflowError
                      end, self)
             \/ exists s' frame,
                  fst (approach_position_number axis p absolute slow false
                         self) = Ok (Some (firstn 5 (incoming s)))
                  /\ ser (snd (approach_position_number axis p absolute slow
                                 false self)) = Some s'
                  /\ written s' = written s ++ frame
                  /\ List.length frame = 11%nat) as Hfwd.
  { intros p.
    destruct (float_to_dec_bytes_number_cases p) as [(dec & E1 & E2)|E].
    - right. rewrite (approach_position_number_packed axis p absolute slow
                        dec E1 E2).
      destruct (approach_position_forward axis (float_of_number p) absolute
                  slow self s dec Hs Hl Ha E2) as (s' & Hs' & Hw & Hr).
      destruct (float_to_dec_bytes_shape _ _ E2) as (Hlen & _).
      exists s'. eexists. repeat split; [exact Hr | exact Hs' | exact Hw |].
      cbn [List.length app]. rewrite length_app, length_map, Hlen.
      reflexivity.
    - left. unfold approach_position_number. cbv zeta. cbv iota.
      run_monad. now rewrite E. }
  destruct reverse.
  - rewrite approach_position_number_reverse.
    destruct (Hfwd (neg_number position)) as [H|H]; [left | right; exact H].
    rewrite H. now destruct position.
  - apply Hfwd.
Qed.

Lemma approach_position_number_outcome_witness :
  approach_position_number 15 (PyInt (2 ^ 128)) true true true quiet_driver
  = (Raise StructError, quiet_driver)
  \/ exists s' frame,
       fst (approach_position_number 15 (PyInt (2 ^ 128)) true true true
              quiet_driver) = Ok (Some (firstn 5 (incoming quiet_port)))
       /\ ser (snd (approach_position_number 15 (PyInt (2 ^ 128)) true true
                      true quiet_driver)) = Some s'
       /\ written s' = written quiet_port ++ frame
       /\ List.length frame = 11%nat.
Proof.
  apply (approach_position_number_outcome 15 (PyInt (2 ^ 128)) true true true
           quiet_driver quiet_port).
  - reflexivity.
  - intros E; discriminate E.
  - unfold byte_range; lia.
Defined.
